(** * export_to_csv: JSON measurement runs to CSV tables

    A shallow embedding of [scripts/export_to_csv.py].  The script reads
    parsed JSON documents, builds one summary row per run and one
    deployment row per (run, measurement, deployment), and hands the rows to
    [csv.DictWriter].

    Python values are embedded as the inductive [value]; a Python [dict] is
    an association list in insertion order (the order decides the CSV
    columns and the order of the rows).  A [str] is a [string]: a sequence
    of characters with codes below 256.  Every operation that can raise in
    Python returns a [result]. *)

From Stdlib Require Import String Ascii List ZArith Bool Lia Arith.
From Stdlib Require Import DecimalString DecimalPos DecimalZ.
Import ListNotations.
Local Open Scope string_scope.
Local Open Scope list_scope.

(** ** Exceptions *)

Inductive exn : Type :=
| AttributeError   (* a method looked up on a value that lacks it *)
| TypeError        (* not iterable, not subscriptable, no len(), bad join item *)
| KeyError         (* subscript of a dict by a missing key *)
| IndexError       (* list or str index out of range *)
| ValueError       (* DictWriter: the row has a key outside fieldnames *)
| LoadError        (* open() or json.load() failed on an input file *)
| CsvError         (* csv.Error, raised by the reader *).

Inductive result (A : Type) : Type :=
| Ok (a : A)
| Raise (e : exn).

Arguments Ok {A} a.
Arguments Raise {A} e.

Definition bind {A B : Type} (m : result A) (k : A -> result B) : result B :=
  match m with
  | Ok a => k a
  | Raise e => Raise e
  end.

Declare Scope py_scope.
Delimit Scope py_scope with py.
Notation "x <- m ;; k" := (bind m (fun x => k))
  (at level 61, m at next level, right associativity) : py_scope.
Notation "' pat <- m ;; k" := (bind m (fun x => match x with pat => k end))
  (at level 61, pat pattern, m at next level, right associativity) : py_scope.
Local Open Scope py_scope.

Fixpoint mapM {A B : Type} (f : A -> result B) (l : list A) : result (list B) :=
  match l with
  | [] => Ok []
  | a :: l' => b <- f a ;; bs <- mapM f l' ;; Ok (b :: bs)
  end.

(** ** Python strings *)

Module PyStr.

(** [s.split(sep)] for a separator of one character, the only use the
    script makes of it.  The result is never empty. *)
Fixpoint split (sep : ascii) (s : string) : list string :=
  match s with
  | EmptyString => [EmptyString]
  | String c s' =>
      if Ascii.eqb c sep then EmptyString :: split sep s'
      else match split sep s' with
           | [] => [String c EmptyString]
           | p :: ps => String c p :: ps
           end
  end.

(** [s.startswith(p)] *)
Definition startswith (p s : string) : bool := String.prefix p s.

(** [sep.join(items)] on items already known to be strings. *)
Fixpoint join (sep : string) (items : list string) : string :=
  match items with
  | [] => EmptyString
  | [x] => x
  | x :: rest => x ++ sep ++ join sep rest
  end.

(** The characters of a string, each as a string of length one: what
    iteration over a [str] yields. *)
Fixpoint chars (s : string) : list string :=
  match s with
  | EmptyString => []
  | String c s' => String c EmptyString :: chars s'
  end.

(** [c in s] for a character. *)
Fixpoint contains (c : ascii) (s : string) : bool :=
  match s with
  | EmptyString => false
  | String d s' => Ascii.eqb d c || contains c s'
  end.

(** [l[i]] with a non-negative index. *)
Definition index {A : Type} (l : list A) (i : nat) : result A :=
  match nth_error l i with
  | Some x => Ok x
  | None => Raise IndexError
  end.

(** [l[-1]] *)
Definition index_last {A : Type} (l : list A) : result A :=
  match rev l with
  | x :: _ => Ok x
  | [] => Raise IndexError
  end.

End PyStr.

(** ** Python values, as [json.load] builds them *)

(** A float is carried by the text [repr] gives for it ([1.5], [1e+16],
    [nan]): the script never computes with a float, it only tests it for
    zero and prints it. *)
#[warnings="-register-all"]
Inductive value : Type :=
| VNone
| VBool (b : bool)
| VInt (n : Z)
| VFloat (repr : string)
| VStr (s : string)
| VList (items : list value)
| VDict (items : list (string * value)).

(** A [dict] with [str] keys, in insertion order. *)
Definition dict (V : Type) : Type := list (string * V).

Module PyDict.
Section Ops.
Context {V : Type}.

(** [k in d], [d[k]] *)
Fixpoint lookup (k : string) (d : dict V) : option V :=
  match d with
  | [] => None
  | (k', v) :: d' => if String.eqb k' k then Some v else lookup k d'
  end.

(** [d[k] = v]: an existing key keeps its position. *)
Fixpoint set (k : string) (v : V) (d : dict V) : dict V :=
  match d with
  | [] => [(k, v)]
  | (k', v') :: d' =>
      if String.eqb k' k then (k', v) :: d' else (k', v') :: set k v d'
  end.

(** [d.update(other)] *)
Definition update (d other : dict V) : dict V :=
  fold_left (fun acc kv => set (fst kv) (snd kv) acc) other d.

(** A dict display [{k1: v1, k2: v2, ...}] *)
Definition literal (items : list (string * V)) : dict V := update [] items.

(** [list(d.keys())] *)
Definition keys (d : dict V) : list string := map fst d.

(** Keys are pairwise distinct in every dict Python can build. *)
Fixpoint distinct_keys (d : dict V) : bool :=
  match d with
  | [] => true
  | (k, _) :: d' =>
      match lookup k d' with
      | Some _ => false
      | None => distinct_keys d'
      end
  end.
End Ops.
End PyDict.

(** The values [json.load] can return: every dict inside has distinct keys. *)
Fixpoint well_formed (v : value) : bool :=
  match v with
  | VList items => forallb well_formed items
  | VDict items =>
      PyDict.distinct_keys items && forallb (fun kv => well_formed (snd kv)) items
  | _ => true
  end.

(** [bool(v)] *)
Definition truthy (v : value) : bool :=
  match v with
  | VNone => false
  | VBool b => b
  | VInt n => negb (n =? 0)%Z
  | VFloat r => negb (String.eqb r "0.0" || String.eqb r "-0.0")
  | VStr s => negb (String.eqb s "")
  | VList items => match items with [] => false | _ => true end
  | VDict items => match items with [] => false | _ => true end
  end.

(** [v.get(k, default)]: only a dict has [get]. *)
Definition py_get (v : value) (k : string) (default : value) : result value :=
  match v with
  | VDict d => Ok (match PyDict.lookup k d with Some x => x | None => default end)
  | _ => Raise AttributeError
  end.

(** [a or b]: [b] is evaluated only when [a] is falsy. *)
Definition py_or (a b : result value) : result value :=
  x <- a ;; if truthy x then Ok x else b.

(** [len(v)] *)
Definition py_len (v : value) : result nat :=
  match v with
  | VStr s => Ok (String.length s)
  | VList items => Ok (List.length items)
  | VDict items => Ok (List.length items)
  | _ => Raise TypeError
  end.

(** [for x in v]: the items the loop visits. *)
Definition py_iter (v : value) : result (list value) :=
  match v with
  | VList items => Ok items
  | VStr s => Ok (map VStr (PyStr.chars s))
  | VDict items => Ok (map (fun kv => VStr (fst kv)) items)
  | _ => Raise TypeError
  end.

(** [v[0]]: JSON dict keys are strings, so [0] is never a key. *)
Definition py_first (v : value) : result value :=
  match v with
  | VList items => PyStr.index items 0
  | VStr s => PyStr.index (map VStr (PyStr.chars s)) 0
  | VDict _ => Raise KeyError
  | _ => Raise TypeError
  end.

(** [v.items()] *)
Definition py_items (v : value) : result (list (string * value)) :=
  match v with
  | VDict items => Ok items
  | _ => Raise AttributeError
  end.

(** [sep.join(v)]: [v] must be iterable and every item a [str]. *)
Definition py_join (sep : string) (v : value) : result value :=
  items <- py_iter v ;;
  strs <- mapM (fun x => match x with VStr s => Ok s | _ => Raise TypeError end) items ;;
  Ok (VStr (PyStr.join sep strs)).

(** ** parse_cluster_info (lines 20-33) *)

Definition parse_cluster_info (cluster_context : string) : result (string * string) :=
  if PyStr.startswith "arn:aws:eks:" cluster_context then
    let parts := PyStr.split ":" cluster_context in
    region <- (if (3 <? List.length parts)%nat then PyStr.index parts 3 else Ok "") ;;
    cluster_name <- (if (5 <? List.length parts)%nat
                     then p5 <- PyStr.index parts 5 ;;
                          PyStr.index_last (PyStr.split "/" p5)
                     else Ok "") ;;
    Ok (region, cluster_name)
  else
    Ok ("", cluster_context).

(** The call [parse_cluster_info(cluster_context)] on whatever value the
    document holds: [startswith] exists on a [str] only. *)
Definition call_parse_cluster_info (cluster_context : value) : result (value * value) :=
  match cluster_context with
  | VStr s => '(region, cluster_name) <- parse_cluster_info s ;;
              Ok (VStr region, VStr cluster_name)
  | _ => Raise AttributeError
  end.

(** ** Fields both exports normalise the same way *)

(** Lines 45-51 and 152-157: region and cluster name. *)
Definition cluster_identity (data : value) : result (value * value) :=
  args <- py_get data "args" (VDict []) ;;
  cluster_context <- py_get args "cluster_context" (VStr "") ;;
  if truthy cluster_context then call_parse_cluster_info cluster_context
  else cluster_name <- py_get data "cluster" (VStr "") ;;
       Ok (VStr "", cluster_name).

(** Lines 54 and 149: [data.get('timestamp', '') or data.get('start_time', '')] *)
Definition run_timestamp (data : value) : result value :=
  py_or (py_get data "timestamp" (VStr "")) (py_get data "start_time" (VStr "")).

(** Lines 65-67 and 165-167: the namespaces, before they are joined. *)
Definition run_namespaces (args : value) : result value :=
  namespaces <- py_get args "namespaces" (VList []) ;;
  if negb (truthy namespaces) then
    ns <- py_get args "namespace" VNone ;;
    if truthy ns then ns' <- py_get args "namespace" VNone ;; Ok (VList [ns'])
    else Ok namespaces
  else Ok namespaces.

(** Lines 75 and 168: [','.join(namespaces) if namespaces else ''] *)
Definition join_namespaces (namespaces : value) : result value :=
  if truthy namespaces then py_join "," namespaces else Ok (VStr "").

(** Lines 105 and 171:
    [data.get('measurements', []) or data.get('measurements_taken', [])] *)
Definition measurements_of (data : value) : result value :=
  py_or (py_get data "measurements" (VList []))
        (py_get data "measurements_taken" (VList [])).

(** ** The summary row of one document (lines 44-124) *)

(** Line 80 *)
Definition postprocessed_of (data : value) : result value :=
  py_or (py_get data "postprocessed" (VDict []))
        (py_get data "postprocessed_data" (VDict [])).

(** Lines 105-118: the cluster block and the deployment count. *)
Definition cluster_and_count (data : value) : result (value * nat) :=
  measurements <- measurements_of data ;;
  if truthy measurements then
    m0 <- py_first measurements ;;
    cluster_data <- py_get m0 "cluster" (VDict []) ;;
    m0' <- py_first measurements ;;
    deployments <- py_get m0' "deployments" (VDict []) ;;
    deployment_count <- py_len deployments ;;
    Ok (cluster_data, deployment_count)
  else
    measurements_pre <- py_get data "measurements_pre" (VDict []) ;;
    measurements_post <- py_get data "measurements_post" (VDict []) ;;
    cluster_data <- py_or (py_get measurements_post "cluster" (VDict []))
                          (py_get measurements_pre "cluster" (VDict [])) ;;
    deployments <- py_get measurements_post "deployments" (VDict []) ;;
    deployment_count <- py_len deployments ;;
    Ok (cluster_data, deployment_count).

Definition summary_row (data : value) : result (dict value) :=
  '(region, cluster_name) <- cluster_identity data ;;
  timestamp <- run_timestamp data ;;
  elapsed <- py_or (py_get data "install_time" (VStr ""))
                   (py_get data "elapsed_time" (VStr "")) ;;
  args <- py_get data "args" (VDict []) ;;
  scenario <- py_get args "scenario" (VStr "") ;;
  action <- py_get args "action" (VStr "") ;;
  namespaces <- run_namespaces args ;;
  namespaces_str <- join_namespaces namespaces ;;
  let row := PyDict.literal
    [ ("region", region);
      ("cluster", cluster_name);
      ("timestamp", timestamp);
      ("scenario", scenario);
      ("action", action);
      ("namespaces", namespaces_str);
      ("elapsed_time", elapsed) ] in
  postprocessed <- postprocessed_of data ;;
  scale_direction <- py_get postprocessed "scale_direction" (VStr "") ;;
  scale_amount <- py_get postprocessed "scale_amount" (VStr "") ;;
  scale_percentage <- py_get postprocessed "scale_percentage" (VStr "") ;;
  jain_fairness_index_mean <- py_get postprocessed "jain_fairness_index_mean" (VStr "") ;;
  jain_fairness_index_median <- py_get postprocessed "jain_fairness_index_median" (VStr "") ;;
  coefficient_of_variation_mean <-
    py_get postprocessed "coefficient_of_variation_mean" (VStr "") ;;
  coefficient_of_variation_median <-
    py_get postprocessed "coefficient_of_variation_median" (VStr "") ;;
  gini_coefficient_mean <- py_get postprocessed "gini_coefficient_mean" (VStr "") ;;
  gini_coefficient_median <- py_get postprocessed "gini_coefficient_median" (VStr "") ;;
  node_skew_mean <- py_get postprocessed "node_skew_mean" (VStr "") ;;
  node_skew_median <- py_get postprocessed "node_skew_median" (VStr "") ;;
  node_skew_max <- py_get postprocessed "node_skew_max" (VStr "") ;;
  node_skew_percentage_mean <- py_get postprocessed "node_skew_percentage_mean" (VStr "") ;;
  node_skew_percentage_median <-
    py_get postprocessed "node_skew_percentage_median" (VStr "") ;;
  node_skew_percentage_max <- py_get postprocessed "node_skew_percentage_max" (VStr "") ;;
  nodes_used_avg <- py_get postprocessed "nosed_used_avg" (VStr "") ;;
  nodes_used_median <- py_get postprocessed "nosed_used_median" (VStr "") ;;
  nodes_used_max <- py_get postprocessed "nosed_used_max" (VStr "") ;;
  nodes_used_min <- py_get postprocessed "nosed_used_min" (VStr "") ;;
  let row := PyDict.update row (PyDict.literal
    [ ("scale_direction", scale_direction);
      ("scale_amount", scale_amount);
      ("scale_percentage", scale_percentage);
      ("jain_fairness_index_mean", jain_fairness_index_mean);
      ("jain_fairness_index_median", jain_fairness_index_median);
      ("coefficient_of_variation_mean", coefficient_of_variation_mean);
      ("coefficient_of_variation_median", coefficient_of_variation_median);
      ("gini_coefficient_mean", gini_coefficient_mean);
      ("gini_coefficient_median", gini_coefficient_median);
      ("node_skew_mean", node_skew_mean);
      ("node_skew_median", node_skew_median);
      ("node_skew_max", node_skew_max);
      ("node_skew_percentage_mean", node_skew_percentage_mean);
      ("node_skew_percentage_median", node_skew_percentage_median);
      ("node_skew_percentage_max", node_skew_percentage_max);
      ("nodes_used_avg", nodes_used_avg);
      ("nodes_used_median", nodes_used_median);
      ("nodes_used_max", nodes_used_max);
      ("nodes_used_min", nodes_used_min) ]) in
  '(cluster_data, deployment_count) <- cluster_and_count data ;;
  node_count <- py_get cluster_data "node_count" (VStr "") ;;
  eligible_node_count <- py_get cluster_data "eligible_node_count" (VStr "") ;;
  Ok (PyDict.update row (PyDict.literal
    [ ("node_count", node_count);
      ("eligible_node_count", eligible_node_count);
      ("deployment_count",
        let count := VInt (Z.of_nat deployment_count) in
        if truthy count then count else VStr "") ])).

(** ** The deployment rows of one document (lines 148-206) *)

(** Lines 171-176: the collection the loop of line 178 runs over. *)
Definition measurements_for_rows (data : value) : result value :=
  measurements <- measurements_of data ;;
  if negb (truthy measurements) then
    measurements_post <- py_get data "measurements_post" VNone ;;
    if truthy measurements_post then Ok (VList [measurements_post])
    else Ok measurements
  else Ok measurements.

(** Lines 184-205: the row of one entry of a deployments mapping. *)
Definition deployment_row
    (region cluster_name namespace_str timestamp measurement_timestamp
       scenario action : value)
    (entry : string * value) : result (dict value) :=
  let '(deployment_name, deployment_data) := entry in
  name <- py_get deployment_data "name" (VStr deployment_name) ;;
  total_pods <- py_get deployment_data "total_pods" (VStr "") ;;
  nodes_used <- py_get deployment_data "nodes_used" (VStr "") ;;
  max_pods <- py_get deployment_data "max_pods" (VStr "") ;;
  min_pods <- py_get deployment_data "min_pods" (VStr "") ;;
  node_skew <- py_get deployment_data "node_skew" (VStr "") ;;
  node_skew_percentage <- py_get deployment_data "node_skew_percentage" (VStr "") ;;
  mean_pods <- py_get deployment_data "mean_pods" (VStr "") ;;
  median_pods <- py_get deployment_data "median_pods" (VStr "") ;;
  coefficient_of_variation <- py_get deployment_data "coefficient_of_variation" (VStr "") ;;
  gini_coefficient <- py_get deployment_data "gini_coefficient" (VStr "") ;;
  jain_fairness_index <- py_get deployment_data "jain_fairness_index" (VStr "") ;;
  Ok (PyDict.literal
    [ ("region", region);
      ("cluster", cluster_name);
      ("namespace", namespace_str);
      ("timestamp", timestamp);
      ("measurement_timestamp", measurement_timestamp);
      ("scenario", scenario);
      ("action", action);
      ("deployment_name", name);
      ("total_pods", total_pods);
      ("nodes_used", nodes_used);
      ("max_pods", max_pods);
      ("min_pods", min_pods);
      ("node_skew", node_skew);
      ("node_skew_percentage", node_skew_percentage);
      ("mean_pods", mean_pods);
      ("median_pods", median_pods);
      ("coefficient_of_variation", coefficient_of_variation);
      ("gini_coefficient", gini_coefficient);
      ("jain_fairness_index", jain_fairness_index) ]).

(** Lines 178-206: the body of the loop over the measurements. *)
Definition measurement_rows
    (region cluster_name namespace_str timestamp scenario action : value)
    (measurement : value) : result (list (dict value)) :=
  deployments <- py_get measurement "deployments" (VDict []) ;;
  measurement_timestamp <- py_get measurement "timestamp" timestamp ;;
  items <- py_items deployments ;;
  mapM (deployment_row region cluster_name namespace_str timestamp
          measurement_timestamp scenario action) items.

Definition deployment_rows (data : value) : result (list (dict value)) :=
  timestamp <- run_timestamp data ;;
  '(region, cluster_name) <- cluster_identity data ;;
  args <- py_get data "args" (VDict []) ;;
  scenario <- py_get args "scenario" (VStr "") ;;
  action <- py_get args "action" (VStr "") ;;
  namespaces <- run_namespaces args ;;
  namespace_str <- join_namespaces namespaces ;;
  measurements <- measurements_for_rows data ;;
  ms <- py_iter measurements ;;
  rowss <- mapM (measurement_rows region cluster_name namespace_str timestamp
                   scenario action) ms ;;
  Ok (concat rowss).

(** ** [str] and [repr] of a value *)

Module PyRepr.

Definition dquote : ascii := ascii_of_nat 34.
Definition squote : ascii := ascii_of_nat 39.
Definition backslash : ascii := ascii_of_nat 92.
Definition CR : ascii := ascii_of_nat 13.
Definition LF : ascii := ascii_of_nat 10.
Definition TAB : ascii := ascii_of_nat 9.

Definition hex_digit (n : nat) : ascii :=
  nth n (list_ascii_of_string "0123456789abcdef") "0"%char.

(** Characters [str.isprintable] rejects, among the codes below 256:
    the controls, DEL to NBSP, and the soft hyphen. *)
Definition unprintable (n : nat) : bool :=
  (n <? 32)%nat || ((127 <=? n)%nat && (n <=? 160)%nat) || (n =? 173)%nat.

Definition repr_char (quote c : ascii) : string :=
  let n := nat_of_ascii c in
  if Ascii.eqb c quote || Ascii.eqb c backslash then String backslash (String c "")
  else if Ascii.eqb c TAB then String backslash "t"
  else if Ascii.eqb c LF then String backslash "n"
  else if Ascii.eqb c CR then String backslash "r"
  else if unprintable n then
    String backslash (String "x" (String (hex_digit (n / 16))
                                    (String (hex_digit (n mod 16)) "")))
  else String c "".

(** [repr(s)]: single quotes, unless the text has one and no double quote. *)
Definition repr_str (s : string) : string :=
  let quote :=
    if PyStr.contains squote s && negb (PyStr.contains dquote s)
    then dquote else squote in
  String quote
    (String.concat "" (map (repr_char quote) (list_ascii_of_string s))
     ++ String quote "").

(** [str(n)] and [repr(n)] of an int *)
Definition str_int (n : Z) : string := NilZero.string_of_int (Z.to_int n).

Fixpoint repr (v : value) : string :=
  match v with
  | VNone => "None"
  | VBool true => "True"
  | VBool false => "False"
  | VInt n => str_int n
  | VFloat r => r
  | VStr s => repr_str s
  | VList items => ("[" ++ PyStr.join ", " (map repr items) ++ "]")%string
  | VDict items =>
      ("{" ++ PyStr.join ", "
                (map (fun kv => repr_str (fst kv) ++ ": " ++ repr (snd kv)) items)
           ++ "}")%string
  end.

(** [str(v)] *)
Definition str (v : value) : string :=
  match v with
  | VStr s => s
  | _ => repr v
  end.

End PyRepr.

(** ** [csv.writer] and [csv.DictWriter], excel dialect

    The script builds [csv.DictWriter(f, fieldnames=fieldnames)] with every
    other argument left at its default: a comma as delimiter, the double quote as
    quote character, doubled inside a quoted field, minimal quoting, line terminator
    CR LF, missing keys filled with [''], extra keys refused. *)

Module Csv.
Import PyRepr.

Definition delimiter : ascii := ","%char.
Definition lineterminator : string := String CR (String LF "").

(** Characters that force a field into quotes under minimal quoting. *)
Definition special (c : ascii) : bool :=
  Ascii.eqb c delimiter || Ascii.eqb c dquote || Ascii.eqb c CR || Ascii.eqb c LF.

Fixpoint needs_quotes (field : string) : bool :=
  match field with
  | EmptyString => false
  | String c rest => special c || needs_quotes rest
  end.

(** The field with every quote character doubled. *)
Fixpoint double_quotes (field : string) : string :=
  match field with
  | EmptyString => EmptyString
  | String c rest =>
      if Ascii.eqb c dquote then String dquote (String dquote (double_quotes rest))
      else String c (double_quotes rest)
  end.

Definition write_field (field : string) : string :=
  if needs_quotes field
  then String dquote (double_quotes field ++ String dquote "")
  else field.

(** The text of a cell: a [str] as it is, [None] as nothing, anything
    else through [str()]. *)
Definition cell_text (v : value) : string :=
  match v with
  | VStr s => s
  | VNone => ""
  | _ => PyRepr.str v
  end.

(** [writer.writerow(cells)]: a record that would be empty although it
    has a field is written as a pair of quotes. *)
Definition writerow (fields : list string) : string :=
  let record := PyStr.join (String delimiter "") (map write_field fields) in
  (match fields, record with
   | _ :: _, EmptyString => String dquote (String dquote "")
   | _, _ => record
   end) ++ lineterminator.

(** [DictWriter._dict_to_list(rowdict)] with [extrasaction='raise'],
    [restval=''] *)
Definition dict_to_list (fieldnames : list string) (rowdict : dict value)
  : result (list value) :=
  if forallb (fun k => existsb (String.eqb k) fieldnames) (PyDict.keys rowdict)
  then Ok (map (fun key => match PyDict.lookup key rowdict with
                           | Some v => v
                           | None => VStr ""
                           end) fieldnames)
  else Raise ValueError.

Definition dictwriter_writerow (fieldnames : list string) (rowdict : dict value)
  : result string :=
  cells <- dict_to_list fieldnames rowdict ;;
  Ok (writerow (map cell_text cells)).

(** [DictWriter.writeheader()] *)
Definition writeheader (fieldnames : list string) : result string :=
  dictwriter_writerow fieldnames
    (PyDict.literal (map (fun k => (k, VStr k)) fieldnames)).

(** [DictWriter.writerows(rows)]: the text written, and the exception
    that stopped the writing, if any; the rows before it are written. *)
Fixpoint writerows (fieldnames : list string) (rows : list (dict value))
  : string * option exn :=
  match rows with
  | [] => ("", None)
  | r :: rest =>
      match dictwriter_writerow fieldnames r with
      | Raise e => ("", Some e)
      | Ok line =>
          let '(text, stop) := writerows fieldnames rest in ((line ++ text)%string, stop)
      end
  end.

End Csv.

(** ** Effects: the files written and the log *)

Inductive level : Type := INFO | WARNING | ERROR.

Inductive event : Type :=
| WriteFile (path content : string)   (* the file is created or replaced *)
| Log (lvl : level) (message : string).

(** A computation leaves a trace of events and returns or raises. *)
Definition io (A : Type) : Type := (list event * result A)%type.

Definition io_bind {A B : Type} (m : io A) (k : A -> io B) : io B :=
  match m with
  | (trace, Ok a) => let '(trace', r) := k a in (trace ++ trace', r)
  | (trace, Raise e) => (trace, Raise e)
  end.

Definition emit (e : event) : io unit := ([e], Ok tt).
Definition lift {A : Type} (r : result A) : io A := ([], r).

Notation "x <~ m ;; k" := (io_bind m (fun x => k))
  (at level 61, m at next level, right associativity) : py_scope.
Notation "m ;;; k" := (io_bind m (fun _ => k))
  (at level 61, right associativity) : py_scope.

(** [str(len(rows))] *)
Definition str_nat (n : nat) : string := PyRepr.str_int (Z.of_nat n).

(** Lines 129-137 and 209-217.  The two copies differ in the words of
    their messages only: [noun] is [summary] or [deployment], [table] is
    [summary] or [deployments]. *)
Definition write_table (noun table : string) (rows : list (dict value))
    (output_file : string) : io unit :=
  match rows with
  | first :: _ =>
      let fieldnames := PyDict.keys first in
      match Csv.writeheader fieldnames with
      | Raise e => ([WriteFile output_file ""], Raise e)
      | Ok header =>
          match Csv.writerows fieldnames rows with
          | (text, Some e) => ([WriteFile output_file (header ++ text)%string], Raise e)
          | (text, None) =>
              emit (WriteFile output_file (header ++ text)%string) ;;;
              emit (Log INFO ("Wrote " ++ str_nat (List.length rows) ++ " " ++ noun
                              ++ " rows to " ++ output_file)%string)
          end
      end
  | [] => emit (Log WARNING ("No data to write to " ++ table ++ " CSV")%string)
  end.

Section Exports.

(** [open(json_file)] followed by [json.load]: the document of each input
    file, or the exception raised when the file cannot be opened or
    parsed. *)
Variable json_load : string -> result value.

(** Lines 39-126 *)
Definition summary_rows (json_files : list string) : result (list (dict value)) :=
  mapM (fun json_file => data <- json_load json_file ;; summary_row data) json_files.

Definition export_summary_csv (json_files : list string) (output_file : string)
  : io unit :=
  rows <~ lift (summary_rows json_files) ;;
  write_table "summary" "summary" rows output_file.

(** Lines 143-206 *)
Definition deployments_rows (json_files : list string)
  : result (list (dict value)) :=
  rowss <- mapM (fun json_file => data <- json_load json_file ;;
                                  deployment_rows data) json_files ;;
  Ok (concat rowss).

Definition export_deployments_csv (json_files : list string) (output_file : string)
  : io unit :=
  rows <~ lift (deployments_rows json_files) ;;
  write_table "deployment" "deployments" rows output_file.

(** Lines 304-315 of [main]: the two exports, one after the other.  At
    this point [json_files] holds the files line 280 found, and there is at
    least one; [summary_file] and [deployments_file] stand for the two
    paths lines 307 and 311 build in the output directory, which nothing
    here looks into: the exports only open them and print them. *)
Definition main_exports (summary_only deployments_only : bool)
    (json_files : list string) (summary_file deployments_file : string) : io Z :=
  let export_both := negb summary_only && negb deployments_only in
  (if summary_only || export_both
   then export_summary_csv json_files summary_file
   else lift (Ok tt)) ;;;
  (if deployments_only || export_both
   then export_deployments_csv json_files deployments_file
   else lift (Ok tt)) ;;;
  emit (Log INFO "Export complete!") ;;;
  lift (Ok 0%Z).

End Exports.

(** ** The shape of a cluster ARN

    [arn:aws:eks:<region>:<acct>:cluster/<name>], the form the docstring of
    [parse_cluster_info] shows. *)
Definition arn (region acct name : string) : string :=
  ("arn:aws:eks:" ++ region ++ ":" ++ acct ++ ":cluster/" ++ name)%string.

(** ** Words of the specification *)

(** The field [k] of an object, [default] when the object lacks it. *)
Definition field (k : string) (default : value) (v : value) : value :=
  match v with
  | VDict d => match PyDict.lookup k d with Some x => x | None => default end
  | _ => default
  end.

(** The key is absent, or what it holds is empty (falsy). *)
Definition absent_or_empty (k : string) (d : dict value) : bool :=
  match PyDict.lookup k d with
  | None => true
  | Some v => negb (truthy v)
  end.

(** The key holds a non-empty list. *)
Definition nonempty_list (k : string) (d : dict value) : bool :=
  match PyDict.lookup k d with
  | Some (VList (_ :: _)) => true
  | _ => false
  end.

(** The key is absent or holds the empty list. *)
Definition absent_or_empty_list (k : string) (d : dict value) : bool :=
  match PyDict.lookup k d with
  | None | Some (VList []) => true
  | _ => false
  end.

(** ** The triples the deployment table has a row for *)

(** The measurements collection of a run, in the words of the
    specification: the [measurements] list if non-empty, else the
    [measurements_taken] list if non-empty, else the one measurement
    [measurements_post] when present. *)
Definition collection_of (data : value) : list value :=
  match field "measurements" (VList []) data with
  | VList (m :: ms) => m :: ms
  | _ =>
      match field "measurements_taken" (VList []) data with
      | VList (m :: ms) => m :: ms
      | _ =>
          match data with
          | VDict d =>
              match PyDict.lookup "measurements_post" d with
              | Some post => [post]
              | None => []
              end
          | _ => []
          end
      end
  end.

(** The entries of the deployments mapping of a measurement. *)
Definition deployments_of (measurement : value) : list (string * value) :=
  match field "deployments" (VDict []) measurement with
  | VDict entries => entries
  | _ => []
  end.

(** Every (measurement, deployment) pair of a run, in document order. *)
Definition triples (data : value) : list (value * (string * value)) :=
  flat_map (fun m => map (pair m) (deployments_of m)) (collection_of data).

(** The row of one (run, measurement, deployment) triple, from the triple
    alone. *)
Definition triple_row (data : value) (triple : value * (string * value))
  : result (dict value) :=
  let '(measurement, entry) := triple in
  timestamp <- run_timestamp data ;;
  '(region, cluster_name) <- cluster_identity data ;;
  args <- py_get data "args" (VDict []) ;;
  scenario <- py_get args "scenario" (VStr "") ;;
  action <- py_get args "action" (VStr "") ;;
  namespaces <- run_namespaces args ;;
  namespace_str <- join_namespaces namespaces ;;
  measurement_timestamp <- py_get measurement "timestamp" timestamp ;;
  deployment_row region cluster_name namespace_str timestamp
    measurement_timestamp scenario action entry.

(** The run-level timestamp, in the words of the specification: the
    [timestamp] field, else the [start_time] field, else empty; an empty
    source counts as missing. *)
Definition run_level_timestamp (data : value) : value :=
  let t := field "timestamp" (VStr "") data in
  if truthy t then t else field "start_time" (VStr "") data.

(** Every (run, measurement, deployment) triple of the input files, in the
    order of the files. *)
Definition run_triples (json_load : string -> result value)
    (json_files : list string) : list (value * (value * (string * value))) :=
  flat_map (fun json_file =>
              match json_load json_file with
              | Ok data => map (pair data) (triples data)
              | Raise _ => []
              end) json_files.

(** The deployment name of a triple: the [name] field of the observation
    when it has one, else its key in the deployments mapping. *)
Definition triple_name (triple : value * (value * (string * value))) : value :=
  let '(_, (_, (key, observation))) := triple in
  field "name" (VStr key) observation.

(** The size of the deployments mapping of a measurement. *)
Definition deployments_size (measurement : value) : nat :=
  List.length (deployments_of measurement).

(** ** The two tables *)

(** The columns of the summary table, in order. *)
Definition summary_columns : list string :=
  [ "region"; "cluster"; "timestamp"; "scenario"; "action"; "namespaces";
    "elapsed_time"; "scale_direction"; "scale_amount"; "scale_percentage";
    "jain_fairness_index_mean"; "jain_fairness_index_median";
    "coefficient_of_variation_mean"; "coefficient_of_variation_median";
    "gini_coefficient_mean"; "gini_coefficient_median"; "node_skew_mean";
    "node_skew_median"; "node_skew_max"; "node_skew_percentage_mean";
    "node_skew_percentage_median"; "node_skew_percentage_max"; "nodes_used_avg";
    "nodes_used_median"; "nodes_used_max"; "nodes_used_min"; "node_count";
    "eligible_node_count"; "deployment_count" ].

(** The columns of the deployments table, in order. *)
Definition deployment_columns : list string :=
  [ "region"; "cluster"; "namespace"; "timestamp"; "measurement_timestamp";
    "scenario"; "action"; "deployment_name"; "total_pods"; "nodes_used";
    "max_pods"; "min_pods"; "node_skew"; "node_skew_percentage"; "mean_pods";
    "median_pods"; "coefficient_of_variation"; "gini_coefficient";
    "jain_fairness_index" ].

(** The cells of a row as they are written: the text of its values, in the
    order of its keys. *)
Definition cells (row : dict value) : list string :=
  map (fun kv => Csv.cell_text (snd kv)) row.

(** A CSV text: one line per record. *)
Definition csv_text (records : list (list string)) : string :=
  fold_right (fun record text => (Csv.writerow record ++ text)%string) "" records.

(** What a table file holds: a header line from the keys of the first row,
    then one line per row. *)
Definition table_text (rows : list (dict value)) : string :=
  match rows with
  | [] => ""
  | first :: _ => csv_text (PyDict.keys first :: map cells rows)
  end.

(** ** Reading a CSV file back: [csv.reader], excel dialect

    The script never reads a table back; this is the reader a consumer of
    its files runs, [list(csv.reader(f))] on a file opened with
    [newline=''], with the dialect of the writer.  The reader is fed line
    by line; a line ends after LF, after CR LF, or after a CR that no LF
    follows; after the characters of each line the parser receives an
    end-of-line mark.  The dialect has no escape character, so the escape
    states of the parser are left out; the limit on the length of a field
    ([csv.field_size_limit]) is a setting of the reading program and is not
    modelled. *)

Module CsvReader.
Import PyRepr.

Inductive parser_state : Type :=
| START_RECORD
| START_FIELD
| IN_FIELD
| IN_QUOTED_FIELD
| QUOTE_IN_QUOTED_FIELD
| EAT_CRNL.

Record parser : Type := Parser {
  state : parser_state;
  pending : string;        (* the characters of the field being read *)
  fields : list string     (* the fields of the record read so far *)
}.

(** [parse_reset] *)
Definition reset : parser := Parser START_RECORD "" [].

(** [parse_add_char] *)
Definition add_char (p : parser) (c : ascii) : parser :=
  Parser (state p) (pending p ++ String c "") (fields p).

(** [parse_save_field] *)
Definition save_field (p : parser) : parser :=
  Parser (state p) "" (fields p ++ [pending p]).

Definition set_state (s : parser_state) (p : parser) : parser :=
  Parser s (pending p) (fields p).

(** What the parser is fed: a character, or the mark at the end of a line. *)
Inductive input : Type :=
| Char (c : ascii)
| EOL.

Definition is_newline (i : input) : bool :=
  match i with
  | Char c => Ascii.eqb c LF || Ascii.eqb c CR
  | EOL => false
  end.

Definition after_line (i : input) : parser_state :=
  match i with
  | EOL => START_RECORD
  | Char _ => EAT_CRNL
  end.

Definition start_field (p : parser) (i : input) : result parser :=
  match i with
  | EOL => Ok (set_state START_RECORD (save_field p))
  | Char c =>
      if is_newline i then Ok (set_state EAT_CRNL (save_field p))
      else if Ascii.eqb c dquote then Ok (set_state IN_QUOTED_FIELD p)
      else if Ascii.eqb c Csv.delimiter then Ok (save_field p)
      else Ok (set_state IN_FIELD (add_char p c))
  end.

(** [parse_process_char] *)
Definition process_char (p : parser) (i : input) : result parser :=
  match state p with
  | START_RECORD =>
      match i with
      | EOL => Ok p
      | Char c =>
          if is_newline i then Ok (set_state EAT_CRNL p)
          else start_field (set_state START_FIELD p) i
      end
  | START_FIELD => start_field p i
  | IN_FIELD =>
      match i with
      | EOL => Ok (set_state START_RECORD (save_field p))
      | Char c =>
          if is_newline i then Ok (set_state EAT_CRNL (save_field p))
          else if Ascii.eqb c Csv.delimiter then Ok (set_state START_FIELD (save_field p))
          else Ok (add_char p c)
      end
  | IN_QUOTED_FIELD =>
      match i with
      | EOL => Ok p
      | Char c =>
          if Ascii.eqb c dquote then Ok (set_state QUOTE_IN_QUOTED_FIELD p)
          else Ok (add_char p c)
      end
  | QUOTE_IN_QUOTED_FIELD =>
      match i with
      | EOL => Ok (set_state START_RECORD (save_field p))
      | Char c =>
          if Ascii.eqb c dquote then Ok (set_state IN_QUOTED_FIELD (add_char p c))
          else if Ascii.eqb c Csv.delimiter then Ok (set_state START_FIELD (save_field p))
          else if is_newline i then Ok (set_state EAT_CRNL (save_field p))
          else Ok (set_state IN_FIELD (add_char p c))
      end
  | EAT_CRNL =>
      match i with
      | EOL => Ok (set_state START_RECORD p)
      | Char c => if is_newline i then Ok p else Raise CsvError
      end
  end.

Definition at_start (p : parser) : bool :=
  match state p with
  | START_RECORD => true
  | _ => false
  end.

(** The end of a line: the parser gets the mark; a parser back at the
    start of a record hands the record over and is reset. *)
Definition end_of_line (p : parser) (records : list (list string))
    (continue : parser -> list (list string) -> result (list (list string)))
  : result (list (list string)) :=
  p' <- process_char p EOL ;;
  if at_start p' then continue reset (records ++ [fields p'])
  else continue p' records.

(** The end of the file, met between two lines: a record left open inside
    a quoted field is handed over as it stands. *)
Definition end_of_file (p : parser) (records : list (list string))
  : result (list (list string)) :=
  match pending p, state p with
  | EmptyString, IN_QUOTED_FIELD | String _ _, _ =>
      Ok (records ++ [fields (save_field p)])
  | EmptyString, _ => Ok records
  end.

(** The lines of the text, fed one after the other; [open] tells that the
    current line has characters so far. *)
Fixpoint read (p : parser) (records : list (list string)) (open : bool)
    (text : string) : result (list (list string)) :=
  match text with
  | EmptyString =>
      if open then end_of_line p records (fun p' records' => end_of_file p' records')
      else end_of_file p records
  | String c rest =>
      p1 <- process_char p (Char c) ;;
      if Ascii.eqb c LF then
        end_of_line p1 records (fun p' records' => read p' records' false rest)
      else if Ascii.eqb c CR then
        match rest with
        | String c' rest' =>
            if Ascii.eqb c' LF then
              p2 <- process_char p1 (Char c') ;;
              end_of_line p2 records (fun p' records' => read p' records' false rest')
            else
              end_of_line p1 records (fun p' records' => read p' records' false rest)
        | EmptyString =>
            end_of_line p1 records (fun p' records' => read p' records' false rest)
        end
      else read p1 records true rest
  end.

(** [list(csv.reader(f))] *)
Definition reader (text : string) : result (list (list string)) :=
  read reset [] false text.

(** *** States and statements the proofs about the reader speak of *)

(** The parser waiting for a field, with the fields [fs] behind it. *)
Definition waiting (fs : list string) : parser := Parser START_FIELD "" fs.

(** The statement on the inside of a quoted field. *)
Definition quoted_content (g : string) : Prop :=
  forall acc fs records open rest,
    read (Parser IN_QUOTED_FIELD acc fs) records open
         (Csv.double_quotes g ++ String dquote rest)
    = read (Parser QUOTE_IN_QUOTED_FIELD (acc ++ g) fs) records true rest.

(** The states a written field leaves the parser in. *)
Inductive field_read (f : string) (fs : list string) : parser -> Prop :=
| field_read_empty : f = "" -> field_read f fs (waiting fs)
| field_read_unquoted : f <> "" -> field_read f fs (Parser IN_FIELD f fs)
| field_read_quoted : field_read f fs (Parser QUOTE_IN_QUOTED_FIELD f fs).

End CsvReader.



(** ** Sample documents *)

Module Samples.

(** A run whose postprocessed block has the four misspelled keys. *)
Definition nosed_stats : dict value :=
  [ ("scale_direction", VStr "up");
    ("nosed_used_avg", VInt 7);
    ("nosed_used_median", VFloat "6.5");
    ("nosed_used_max", VInt 9);
    ("nosed_used_min", VInt 2) ].

Definition nosed_run : value :=
  VDict [ ("cluster", VStr "c1"); ("postprocessed", VDict nosed_stats) ].

(** A legacy run with only [measurements_post]. *)
Definition post_only : dict value :=
  [ ("args", VDict [("cluster_context",
                     VStr "arn:aws:eks:us-east-1:1:cluster/c2")]);
    ("measurements_post",
      VDict [ ("cluster", VDict [("node_count", VInt 4);
                                 ("eligible_node_count", VInt 3)]);
              ("deployments", VDict [("web", VDict [("total_pods", VInt 5)])]) ]) ].

(** A legacy run whose [measurements_post] has no deployment. *)
Definition post_empty : dict value :=
  [ ("measurements_pre", VDict [("cluster", VDict [("node_count", VInt 8)])]);
    ("measurements_post", VDict [("deployments", VDict [])]) ].

Definition two_measurements : list value :=
  [ VDict [ ("timestamp", VStr "t1");
            ("deployments", VDict [ ("a", VDict [("total_pods", VInt 1)]);
                                    ("b", VDict [("name", VStr "bee")]) ]) ];
    VDict [ ("deployments", VDict [ ("a", VDict [("total_pods", VInt 2)]) ]) ] ].

(** A run with both collections. *)
Definition both_collections : dict value :=
  [ ("cluster", VStr "c1");
    ("start_time", VStr "t0");
    ("measurements", VList two_measurements);
    ("measurements_taken",
      VList [ VDict [ ("deployments", VDict [ ("z", VDict []) ]) ] ]) ].

(** A legacy run with [measurements_pre] only. *)
Definition pre_only : dict value :=
  [ ("cluster", VStr "c3");
    ("measurements_pre",
      VDict [ ("cluster", VDict [("node_count", VInt 8)]);
              ("deployments", VDict [("web", VDict [("total_pods", VInt 5)])]) ]) ].

(** Two input files: a run with both collections and a legacy run. *)
Definition two_files (json_file : string) : result value :=
  if String.eqb json_file "out/a.json" then Ok (VDict both_collections)
  else if String.eqb json_file "out/b.json" then Ok (VDict post_only)
  else Raise LoadError.

(** One input file, a legacy run with [measurements_pre] only. *)
Definition one_file (json_file : string) : result value :=
  if String.eqb json_file "out/c.json" then Ok (VDict pre_only)
  else Raise LoadError.

End Samples.

(** ** More sample documents *)

Module MoreSamples.

(** A run whose [measurements_taken] is null. *)
Definition taken_null : dict value :=
  [ ("cluster", VStr "c4"); ("measurements_taken", VNone) ].

(** A run whose second measurement is not an object. *)
Definition bad_second : dict value :=
  [ ("cluster", VStr "c5");
    ("measurements",
      VList [ VDict [ ("cluster", VDict [("node_count", VInt 3)]);
                      ("deployments", VDict [("web", VDict [])]) ];
              VStr "oops" ]) ].

(** A new-format run with namespaces and an ARN that is ignored. *)
Definition named_run : dict value :=
  [ ("cluster", VStr "ignored");
    ("timestamp", VStr "t9");
    ("args", VDict [ ("cluster_context", VStr "kind-local");
                     ("scenario", VStr "spread");
                     ("action", VStr "scale");
                     ("namespaces", VList [VStr "ns1"; VStr "ns2"]) ]);
    ("measurements",
      VList [ VDict [ ("deployments",
                        VDict [ ("web", VDict [("total_pods", VInt 4)]);
                                ("api", VDict [("total_pods", VInt 2)]) ]) ] ]) ].

(** Two input files; the second gives a summary row and no deployment row. *)
Definition files_with_null (json_file : string) : result value :=
  if String.eqb json_file "out/a.json" then Ok (VDict Samples.both_collections)
  else if String.eqb json_file "out/d.json" then Ok (VDict taken_null)
  else Raise LoadError.

Definition named_file (json_file : string) : result value :=
  if String.eqb json_file "out/n.json" then Ok (VDict named_run)
  else Raise LoadError.

End MoreSamples.

(** ** find_json_files (lines 220-228)

    The file system below the working directory is a tree of named
    entries; a path is given by its parts, relative to the working
    directory and free of [..].  Symbolic links and special files are not
    modelled.  [Path.rglob] yields every entry below the directory, file or
    directory, whose name matches the pattern; [sorted] orders paths by
    their parts, a part by the codes of its characters. *)

Module Fs.

#[warnings="-register-all"]
Inductive node : Type :=
| File
| Dir (entries : list (string * node)).

Definition path : Type := list string.

(** The entry a path leads to, if any. *)
Fixpoint resolve (n : node) (p : path) : option node :=
  match p with
  | [] => Some n
  | name :: rest =>
      match n with
      | File => None
      | Dir entries =>
          match PyDict.lookup name entries with
          | Some child => resolve child rest
          | None => None
          end
      end
  end.

(** Names are pairwise distinct in every directory. *)
Fixpoint well_formed (n : node) : bool :=
  match n with
  | File => true
  | Dir entries =>
      PyDict.distinct_keys entries
      && forallb (fun entry => well_formed (snd entry)) entries
  end.

(** Everything below a node, each with its path from the node. *)
Fixpoint descendants (n : node) : list (path * node) :=
  match n with
  | File => []
  | Dir entries =>
      flat_map (fun entry =>
                  ([fst entry], snd entry)
                  :: map (fun below => (fst entry :: fst below, snd below))
                         (descendants (snd entry)))
               entries
  end.

(** [s.endswith(suffix)] *)
Definition endswith (suffix s : string) : bool :=
  (String.length suffix <=? String.length s)%nat
  && String.eqb (String.substring (String.length s - String.length suffix)
                                  (String.length suffix) s) suffix.

(** The name matches the pattern [*.json] (names are case-sensitive). *)
Definition json_name (name : string) : bool := endswith ".json" name.

(** [p.name] *)
Definition name (p : path) : string := last p "".

(** [path.rglob('*.json')], as paths from the directory. *)
Definition rglob_json (n : node) : list path :=
  map fst (filter (fun below => json_name (name (fst below))) (descendants n)).

(** [a <= b] on paths: part by part. *)
Fixpoint path_leb (a b : path) : bool :=
  match a, b with
  | [], _ => true
  | _ :: _, [] => false
  | x :: a', y :: b' =>
      match String.compare x y with
      | Lt => true
      | Gt => false
      | Eq => path_leb a' b'
      end
  end.

Fixpoint insert (p : path) (l : list path) : list path :=
  match l with
  | [] => [p]
  | q :: l' => if path_leb p q then p :: q :: l' else q :: insert p l'
  end.

(** [sorted(paths)] *)
Definition sorted (l : list path) : list path := fold_right insert [] l.

(** [str(path)] *)
Definition path_str (p : path) : string :=
  match p with
  | [] => "."
  | _ => PyStr.join "/" p
  end.

End Fs.

(** The paths found, and what is logged on the way. *)
Definition find_json_files (root : Fs.node) (path : Fs.path)
  : list event * list Fs.path :=
  match Fs.resolve root path with
  | Some Fs.File => ([], [path])
  | Some (Fs.Dir entries) =>
      ([], Fs.sorted (map (app path) (Fs.rglob_json (Fs.Dir entries))))
  | None => ([Log ERROR ("Path not found: " ++ Fs.path_str path)%string], [])
  end.


Module FsSamples.

Definition run_dir : Fs.node :=
  Fs.Dir [ ("b.json", Fs.File);
           ("notes.txt", Fs.File);
           ("a", Fs.Dir [ ("z.json", Fs.File); ("old.json", Fs.Dir []) ]);
           ("a-b.json", Fs.File) ].

Definition tree : Fs.node := Fs.Dir [ ("output", run_dir) ].

End FsSamples.


(** ** Numbers of the input

    [json.load] reads a number written without fraction and exponent with
    [int]: the token is an optional minus sign, then either a lone [0] or
    a digit from 1 to 9 and any digits.  [int] refuses a numeral of more
    than 4300 digits, its default limit, with a [ValueError].  A number with a fraction or an
    exponent becomes a float, which the model carries as the [repr] Python
    gives it. *)







Module NumberSamples.



End NumberSamples.

(** A line of column names that need no quoting. *)
Definition header_line (columns : list string) : string :=
  (PyStr.join "," columns ++ Csv.lineterminator)%string.

(** * Properties *)

Example samples_well_formed :
  forallb well_formed
    [ Samples.nosed_run; VDict Samples.post_only; VDict Samples.post_empty;
      VDict Samples.both_collections; VDict Samples.pre_only ] = true.
Proof. reflexivity. Qed.

Example parse_cluster_info_docstring :
  parse_cluster_info "arn:aws:eks:us-east-1:906324658258:cluster/prod-live-main"
  = Ok ("us-east-1", "prod-live-main").
Proof. reflexivity. Qed.

(** ** Splitting *)

Section Split.
Variable sep : ascii.

Lemma split_nonempty (s : string) : PyStr.split sep s <> [].
Proof.
  destruct s as [|c s]; simpl; [discriminate|].
  destruct (Ascii.eqb c sep); [discriminate|].
  destruct (PyStr.split sep s); discriminate.
Qed.

Lemma split_no_sep (s : string) :
  PyStr.contains sep s = false -> PyStr.split sep s = [s].
Proof.
  induction s as [|c s IH]; simpl; [reflexivity|].
  intros H. apply orb_false_iff in H as [Hc Hs].
  rewrite Hc, (IH Hs). reflexivity.
Qed.

Lemma split_app (a b : string) :
  PyStr.contains sep a = false ->
  PyStr.split sep (a ++ String sep b)%string = a :: PyStr.split sep b.
Proof.
  induction a as [|c a IH]; simpl.
  - intros _. rewrite Ascii.eqb_refl. reflexivity.
  - intros H. apply orb_false_iff in H as [Hc Ha].
    rewrite Hc, (IH Ha). reflexivity.
Qed.

Lemma contains_app (a b : string) :
  PyStr.contains sep (a ++ b)%string = PyStr.contains sep a || PyStr.contains sep b.
Proof.
  induction a as [|c a IH]; simpl; [reflexivity|].
  rewrite IH, orb_assoc. reflexivity.
Qed.
End Split.

Lemma index_last_split (sep : ascii) (s : string) :
  exists x, PyStr.index_last (PyStr.split sep s) = Ok x.
Proof.
  unfold PyStr.index_last.
  destruct (rev (PyStr.split sep s)) as [|x r] eqn:E.
  - apply (f_equal (@rev string)) in E. rewrite rev_involutive in E.
    simpl in E. destruct (split_nonempty sep s E).
  - exists x. reflexivity.
Qed.

Lemma index_in_range {A : Type} (l : list A) (i : nat) :
  i < List.length l -> exists x, PyStr.index l i = Ok x.
Proof.
  intros H. unfold PyStr.index.
  destruct (nth_error l i) as [x|] eqn:E.
  - exists x. reflexivity.
  - apply nth_error_None in E. lia.
Qed.

Lemma startswith_app (p s : string) : PyStr.startswith p (p ++ s)%string = true.
Proof.
  unfold PyStr.startswith.
  induction p as [|c p IH]; simpl.
  - destruct s; reflexivity.
  - destruct (ascii_dec c c); [exact IH | congruence].
Qed.

Lemma split_arn (region acct name : string) :
  PyStr.contains ":" region = false ->
  PyStr.contains ":" acct = false ->
  PyStr.contains ":" name = false ->
  PyStr.split ":" (arn region acct name)
  = ["arn"; "aws"; "eks"; region; acct; ("cluster/" ++ name)%string].
Proof.
  intros Hr Ha Hn. unfold arn.
  change ("arn:aws:eks:" ++ region ++ ":" ++ acct ++ ":cluster/" ++ name)%string
    with ("arn" ++ String ":" ("aws" ++ String ":" ("eks" ++ String ":"
            (region ++ String ":" (acct ++ String ":" ("cluster/" ++ name))))))%string.
  rewrite !split_app by (assumption || reflexivity).
  rewrite split_no_sep; [reflexivity|].
  rewrite contains_app, Hn. reflexivity.
Qed.

(** C2, as stated, fails: a name with a slash inside satisfies the stated
    side condition (no colon in any segment), and only the part after the
    last slash comes back. *)
Lemma parse_cluster_info_slash_name :
  PyStr.contains ":" "us-east-1" = false /\
  PyStr.contains ":" "1" = false /\
  PyStr.contains ":" "a/b" = false /\
  parse_cluster_info (arn "us-east-1" "1" "a/b") <> Ok ("us-east-1", "a/b").
Proof. repeat split; try reflexivity. vm_compute. discriminate. Qed.

(** C2, amended: for an ARN [arn:aws:eks:<region>:<acct>:cluster/<name>]
    with no colon inside the segments and no slash inside the name,
    [parse_cluster_info] returns exactly [(region, name)]; the region is the
    4th colon-segment and the name the last slash-segment of the 6th. *)
Theorem parse_cluster_info_arn (region acct name : string) :
  PyStr.contains ":" region = false ->
  PyStr.contains ":" acct = false ->
  PyStr.contains ":" name = false ->
  PyStr.contains "/" name = false ->
  parse_cluster_info (arn region acct name) = Ok (region, name) /\
  PyStr.index (PyStr.split ":" (arn region acct name)) 3 = Ok region /\
  (exists seg6, PyStr.index (PyStr.split ":" (arn region acct name)) 5 = Ok seg6 /\
               PyStr.index_last (PyStr.split "/" seg6) = Ok name).
Proof.
  intros Hr Ha Hn Hs.
  assert (Hseg : PyStr.split "/" ("cluster/" ++ name)%string = ["cluster"; name]).
  { change ("cluster/" ++ name)%string with ("cluster" ++ String "/" name)%string.
    rewrite split_app by reflexivity. rewrite split_no_sep by assumption.
    reflexivity. }
  unfold parse_cluster_info.
  rewrite split_arn by assumption.
  split; [|split].
  - unfold arn at 1. rewrite startswith_app.
    cbn [List.length Nat.ltb Nat.leb PyStr.index nth_error bind].
    rewrite Hseg. reflexivity.
  - reflexivity.
  - exists ("cluster/" ++ name)%string. split; [reflexivity|]. rewrite Hseg. reflexivity.
Qed.

Lemma parse_cluster_info_arn_witness :
  PyStr.contains ":" "us-east-1" = false /\
  PyStr.contains ":" "906324658258" = false /\
  PyStr.contains ":" "prod-live-main" = false /\
  PyStr.contains "/" "prod-live-main" = false /\
  parse_cluster_info (arn "us-east-1" "906324658258" "prod-live-main")
  = Ok ("us-east-1", "prod-live-main").
Proof.
  split; [reflexivity|]. split; [reflexivity|].
  split; [reflexivity|]. split; [reflexivity|].
  apply (parse_cluster_info_arn "us-east-1" "906324658258" "prod-live-main");
    reflexivity.
Defined.

(** C3: [parse_cluster_info] returns on every string; on a string with the
    prefix [arn:aws:eks:] the region is empty when there are fewer than 4
    colon-segments and the cluster name is empty when there are fewer
    than 6. *)
Theorem parse_cluster_info_short (cluster_context : string) :
  exists region name,
    parse_cluster_info cluster_context = Ok (region, name) /\
    (PyStr.startswith "arn:aws:eks:" cluster_context = true ->
     let segments := List.length (PyStr.split ":" cluster_context) in
     (segments < 4 -> region = "") /\
     (segments < 6 -> name = "") /\
     (segments < 4 \/ segments < 6 -> region = "" \/ name = "")).
Proof.
  unfold parse_cluster_info.
  destruct (PyStr.startswith "arn:aws:eks:" cluster_context).
  2:{ exists "", cluster_context. split; [reflexivity | discriminate]. }
  set (parts := PyStr.split ":" cluster_context).
  assert (Hregion : exists region,
             (if (3 <? List.length parts)%nat then PyStr.index parts 3 else Ok "")
             = Ok region /\ (List.length parts < 4 -> region = "")).
  { destruct (Nat.ltb_spec 3 (List.length parts)) as [H|H].
    - destruct (index_in_range parts 3 H) as [x Hx]. exists x. split; [exact Hx | lia].
    - exists "". split; reflexivity. }
  assert (Hname : exists name,
             (if (5 <? List.length parts)%nat
              then p5 <- PyStr.index parts 5 ;; PyStr.index_last (PyStr.split "/" p5)
              else Ok "")
             = Ok name /\ (List.length parts < 6 -> name = "")).
  { destruct (Nat.ltb_spec 5 (List.length parts)) as [H|H].
    - destruct (index_in_range parts 5 H) as [p5 Hp5].
      destruct (index_last_split "/" p5) as [x Hx].
      exists x. rewrite Hp5. simpl. split; [exact Hx | lia].
    - exists "". split; reflexivity. }
  destruct Hregion as [region [Er Hr]], Hname as [name [En Hn]].
  exists region, name. rewrite Er. simpl. rewrite En. simpl.
  split; [reflexivity|]. intros _.
  repeat split; try assumption.
  intros [H|H]; [left; apply Hr; exact H | right; apply Hn; exact H].
Qed.

Example parse_cluster_info_prefix_only :
  parse_cluster_info "arn:aws:eks:" = Ok ("", "").
Proof. reflexivity. Qed.

Example parse_cluster_info_no_name :
  parse_cluster_info "arn:aws:eks:us-east-1:1" = Ok ("us-east-1", "").
Proof. reflexivity. Qed.

Example parse_cluster_info_plain_name :
  parse_cluster_info "prod-live-main" = Ok ("", "prod-live-main").
Proof. reflexivity. Qed.

(** ** Reasoning on the error monad *)

Lemma bind_Ok {A B : Type} (m : result A) (k : A -> result B) (b : B) :
  bind m k = Ok b -> exists a, m = Ok a /\ k a = Ok b.
Proof. destruct m as [a|e]; simpl; [eauto | discriminate]. Qed.

Lemma py_get_Ok (v : value) (k : string) (default x : value) :
  py_get v k default = Ok x ->
  exists d, v = VDict d /\
            x = match PyDict.lookup k d with Some y => y | None => default end.
Proof.
  destruct v; simpl; try discriminate.
  intros [= <-]. eauto.
Qed.

Lemma py_get_dict (d : dict value) (k : string) (default : value) :
  py_get (VDict d) k default
  = Ok (match PyDict.lookup k d with Some y => y | None => default end).
Proof. reflexivity. Qed.

(** Splits the first [bind] of [H : bind m k = Ok b], and goes on. *)
Ltac inv_bind H :=
  let a := fresh "x" in
  let E := fresh "E" in
  apply bind_Ok in H; destruct H as [a [E H]]; cbv beta in H;
  lazymatch type of a with
  | prod _ _ => destruct a
  | _ => idtac
  end.

Ltac inv_binds H := repeat inv_bind H.

(** C1: the summary row carries, under the columns [nodes_used_avg],
    [nodes_used_median], [nodes_used_max], [nodes_used_min], exactly the
    values the postprocessed block it is built from holds under the
    misspelled keys [nosed_used_avg], [nosed_used_median], [nosed_used_max],
    [nosed_used_min]. *)
Theorem summary_row_nodes_used (data : value) (row stats : dict value) :
  summary_row data = Ok row ->
  postprocessed_of data = Ok (VDict stats) ->
  (forall v, PyDict.lookup "nosed_used_avg" stats = Some v ->
             PyDict.lookup "nodes_used_avg" row = Some v) /\
  (forall v, PyDict.lookup "nosed_used_median" stats = Some v ->
             PyDict.lookup "nodes_used_median" row = Some v) /\
  (forall v, PyDict.lookup "nosed_used_max" stats = Some v ->
             PyDict.lookup "nodes_used_max" row = Some v) /\
  (forall v, PyDict.lookup "nosed_used_min" stats = Some v ->
             PyDict.lookup "nodes_used_min" row = Some v).
Proof.
  intros H Hpp.
  unfold summary_row in H. inv_binds H.
  match goal with E : postprocessed_of data = Ok ?x |- _ =>
    rewrite Hpp in E; injection E as <- end.
  rewrite py_get_dict in *.
  repeat match goal with E : Ok _ = Ok _ |- _ => injection E as <- end.
  repeat split; intros found Hfound; cbn; rewrite Hfound; reflexivity.
Qed.

Lemma summary_row_nodes_used_witness :
  exists row,
    summary_row Samples.nosed_run = Ok row /\
    postprocessed_of Samples.nosed_run = Ok (VDict Samples.nosed_stats) /\
    PyDict.lookup "nosed_used_avg" Samples.nosed_stats = Some (VInt 7) /\
    PyDict.lookup "nodes_used_avg" row = Some (VInt 7) /\
    PyDict.lookup "nodes_used_median" row = Some (VFloat "6.5").
Proof.
  eexists. split; [reflexivity|]. split; [reflexivity|]. split; [reflexivity|].
  destruct (summary_row_nodes_used Samples.nosed_run _ Samples.nosed_stats
              eq_refl eq_refl) as [Havg [Hmedian _]].
  split; [apply Havg | apply Hmedian]; reflexivity.
Defined.

Lemma measurements_of_legacy (d : dict value) :
  absent_or_empty "measurements" d = true ->
  absent_or_empty "measurements_taken" d = true ->
  exists m, measurements_of (VDict d) = Ok m /\ truthy m = false.
Proof.
  unfold absent_or_empty, measurements_of, py_or. simpl.
  intros H1 H2.
  destruct (PyDict.lookup "measurements" d) as [m|] eqn:E1;
    destruct (PyDict.lookup "measurements_taken" d) as [t|] eqn:E2; simpl.
  1,2: apply negb_true_iff in H1; rewrite H1.
  - apply negb_true_iff in H2. eauto.
  - eauto.
  - apply negb_true_iff in H2. eauto.
  - eauto.
Qed.

Lemma py_get_field (v : value) (k : string) (default x : value) :
  py_get v k default = Ok x -> x = field k default v.
Proof. destruct v; simpl; try discriminate. intros [= <-]. reflexivity. Qed.

Lemma py_or_Ok (a b : result value) (x : value) :
  py_or a b = Ok x ->
  exists y, a = Ok y /\ if truthy y then x = y else b = Ok x.
Proof.
  unfold py_or. intros H. inv_bind H. exists x0. split; [assumption|].
  destruct (truthy x0); [congruence | assumption].
Qed.

(** The last three columns of a summary row. *)
Lemma summary_row_counts (data : value) (row : dict value) :
  summary_row data = Ok row ->
  exists cluster_data count,
    cluster_and_count data = Ok (cluster_data, count) /\
    PyDict.lookup "node_count" row
      = Some (field "node_count" (VStr "") cluster_data) /\
    PyDict.lookup "eligible_node_count" row
      = Some (field "eligible_node_count" (VStr "") cluster_data) /\
    PyDict.lookup "deployment_count" row
      = Some (if truthy (VInt (Z.of_nat count)) then VInt (Z.of_nat count)
              else VStr "").
Proof.
  intros H. unfold summary_row in H. inv_binds H.
  match goal with E : cluster_and_count _ = Ok (?c, ?n) |- _ => exists c, n end.
  repeat match goal with
    | E : py_get ?c "node_count" _ = Ok _ |- _ => apply py_get_field in E; subst
    | E : py_get ?c "eligible_node_count" _ = Ok _ |- _ =>
        apply py_get_field in E; subst
    end.
  injection H as <-.
  repeat split; try assumption; reflexivity.
Qed.

(** The legacy branch of lines 112-118. *)
Lemma cluster_and_count_legacy (d : dict value) (cluster_data : value) (count : nat) :
  absent_or_empty "measurements" d = true ->
  absent_or_empty "measurements_taken" d = true ->
  cluster_and_count (VDict d) = Ok (cluster_data, count) ->
  let post := field "measurements_post" (VDict []) (VDict d) in
  let pre := field "measurements_pre" (VDict []) (VDict d) in
  let post_cluster := field "cluster" (VDict []) post in
  cluster_data = (if truthy post_cluster then post_cluster
                  else field "cluster" (VDict []) pre) /\
  py_len (field "deployments" (VDict []) post) = Ok count.
Proof.
  intros Hm Ht H.
  destruct (measurements_of_legacy d Hm Ht) as [m [Em Fm]].
  unfold cluster_and_count in H. rewrite Em in H. simpl bind in H.
  rewrite Fm in H. inv_binds H. injection H as <- <-.
  repeat match goal with
    | E : py_get (VDict d) _ _ = Ok _ |- _ => apply py_get_field in E; subst
    end.
  match goal with E : py_or _ _ = Ok _ |- _ =>
    apply py_or_Ok in E; destruct E as [pc [Epc Eor]] end.
  apply py_get_field in Epc. subst pc.
  match goal with E : py_get _ "deployments" _ = Ok _ |- _ =>
    apply py_get_field in E; subst end.
  cbv zeta. split; [|assumption].
  change (match PyDict.lookup "measurements_post" d with
          | Some x => x
          | None => VDict []
          end) with (field "measurements_post" (VDict []) (VDict d)) in Eor.
  destruct (truthy _); [assumption|].
  apply py_get_field in Eor. assumption.
Qed.

(** C5: in a document with no measurements and no measurements_taken (each
    absent or empty) the summary row takes [node_count] and
    [eligible_node_count] from the cluster block of [measurements_post], or
    from that of [measurements_pre] when the former is absent or empty; the
    deployment count is the number of entries of the deployments mapping of
    [measurements_post], whatever [measurements_pre] holds; a count of zero
    is written as the empty field, any other count as that integer. *)
Theorem summary_row_legacy (d row : dict value) :
  absent_or_empty "measurements" d = true ->
  absent_or_empty "measurements_taken" d = true ->
  summary_row (VDict d) = Ok row ->
  let post := field "measurements_post" (VDict []) (VDict d) in
  let pre := field "measurements_pre" (VDict []) (VDict d) in
  let post_cluster := field "cluster" (VDict []) post in
  let cluster := if truthy post_cluster then post_cluster
                 else field "cluster" (VDict []) pre in
  PyDict.lookup "node_count" row = Some (field "node_count" (VStr "") cluster) /\
  PyDict.lookup "eligible_node_count" row
    = Some (field "eligible_node_count" (VStr "") cluster) /\
  exists count cell,
    py_len (field "deployments" (VDict []) post) = Ok count /\
    (forall entries : dict value,
       field "deployments" (VDict []) post = VDict entries ->
       count = List.length entries /\ count = deployments_size post) /\
    PyDict.lookup "deployment_count" row = Some cell /\
    (count <> 0 -> cell = VInt (Z.of_nat count)) /\
    (count = 0 ->
       Csv.write_field (Csv.cell_text cell) = "" /\
       Csv.write_field (Csv.cell_text cell) <> "0").
Proof.
  intros Hm Ht H.
  destruct (summary_row_counts _ _ H) as [cluster_data [count [Hcc [Hn [He Hd]]]]].
  destruct (cluster_and_count_legacy d _ _ Hm Ht Hcc) as [Hcluster Hlen].
  cbv zeta. rewrite <- Hcluster.
  split; [exact Hn|]. split; [exact He|].
  exists count. eexists. split; [exact Hlen|]. split.
  { intros entries Hentries.
    unfold deployments_size, deployments_of.
    rewrite Hentries in Hlen |- *. simpl in Hlen.
    injection Hlen as <-. split; reflexivity. }
  split; [exact Hd|].
  split.
  - intros Hc. simpl. destruct (Z.eqb_spec (Z.of_nat count) 0); [lia | reflexivity].
  - intros ->. simpl. split; [reflexivity | discriminate].
Qed.

Lemma summary_row_legacy_witness :
  (exists row,
     absent_or_empty "measurements" Samples.post_only = true /\
     absent_or_empty "measurements_taken" Samples.post_only = true /\
     summary_row (VDict Samples.post_only) = Ok row /\
     PyDict.lookup "node_count" row = Some (VInt 4) /\
     PyDict.lookup "eligible_node_count" row = Some (VInt 3) /\
     PyDict.lookup "deployment_count" row = Some (VInt 1)) /\
  (exists row,
     absent_or_empty "measurements" Samples.post_empty = true /\
     absent_or_empty "measurements_taken" Samples.post_empty = true /\
     summary_row (VDict Samples.post_empty) = Ok row /\
     PyDict.lookup "node_count" row = Some (VInt 8) /\
     exists cell,
       PyDict.lookup "deployment_count" row = Some cell /\
       Csv.write_field (Csv.cell_text cell) = "").
Proof.
  split.
  - eexists. split; [reflexivity|]. split; [reflexivity|]. split; [reflexivity|].
    assert (H := summary_row_legacy Samples.post_only _
                   eq_refl eq_refl eq_refl).
    cbv zeta in H.
    destruct H as [Hn [He [count [cell [_ [Hsize [Hd [Hnz _]]]]]]]].
    destruct (Hsize _ eq_refl) as [Hc _]. simpl in Hc. subst count.
    split; [exact Hn|]. split; [exact He|].
    rewrite (Hnz (Nat.neq_succ_0 0)) in Hd. exact Hd.
  - eexists. split; [reflexivity|]. split; [reflexivity|]. split; [reflexivity|].
    assert (H := summary_row_legacy Samples.post_empty _
                   eq_refl eq_refl eq_refl).
    cbv zeta in H.
    destruct H as [Hn [_ [count [cell [_ [Hsize [Hd [_ Hz]]]]]]]].
    destruct (Hsize _ eq_refl) as [Hc _]. simpl in Hc.
    split; [exact Hn|]. exists cell. split; [exact Hd|].
    exact (proj1 (Hz Hc)).
Defined.

(** ** Traversals *)

Lemma mapM_ext_in {A B : Type} (f g : A -> result B) (l : list A) :
  (forall a, In a l -> f a = g a) -> mapM f l = mapM g l.
Proof.
  induction l as [|a l IH]; simpl; [reflexivity|].
  intros H. rewrite (H a) by (left; reflexivity).
  rewrite IH by (intros; apply H; right; assumption). reflexivity.
Qed.

Lemma mapM_map {A B C : Type} (f : B -> result C) (g : A -> B) (l : list A) :
  mapM f (map g l) = mapM (fun a => f (g a)) l.
Proof.
  induction l as [|a l IH]; simpl; [reflexivity|]. rewrite IH. reflexivity.
Qed.

Lemma mapM_app {A B : Type} (f : A -> result B) (l1 l2 : list A) (r1 r2 : list B) :
  mapM f l1 = Ok r1 -> mapM f l2 = Ok r2 -> mapM f (l1 ++ l2) = Ok (r1 ++ r2).
Proof.
  revert r1. induction l1 as [|a l1 IH]; simpl; intros r1 H1 H2.
  - injection H1 as <-. exact H2.
  - inv_binds H1. injection H1 as <-.
    rewrite E. simpl. rewrite (IH _ E0 H2). reflexivity.
Qed.

Lemma mapM_length {A B : Type} (f : A -> result B) (l : list A) (r : list B) :
  mapM f l = Ok r -> List.length r = List.length l.
Proof.
  revert r. induction l as [|a l IH]; simpl; intros r H.
  - injection H as <-. reflexivity.
  - inv_binds H. injection H as <-. simpl. rewrite (IH _ E0). reflexivity.
Qed.

Lemma mapM_Forall2 {A B : Type} (f : A -> result B) (l : list A) (r : list B) :
  mapM f l = Ok r -> Forall2 (fun a b => f a = Ok b) l r.
Proof.
  revert r. induction l as [|a l IH]; simpl; intros r H.
  - injection H as <-. constructor.
  - inv_binds H. injection H as <-. constructor; [assumption | apply IH; assumption].
Qed.

(** A loop over groups that extends one list of rows is a single pass over
    the items of all groups. *)
Lemma mapM_flat_map {A B C : Type}
    (g : A -> result (list C)) (items : A -> list B) (h : B -> result C)
    (l : list A) (rss : list (list C)) :
  (forall a rs, In a l -> g a = Ok rs -> mapM h (items a) = Ok rs) ->
  mapM g l = Ok rss ->
  mapM h (flat_map items l) = Ok (concat rss).
Proof.
  revert rss. induction l as [|a l IH]; simpl; intros rss Hg H.
  - injection H as <-. reflexivity.
  - inv_binds H. injection H as <-. simpl.
    apply mapM_app.
    + apply Hg; [left; reflexivity | assumption].
    + apply IH; [|assumption]. intros; apply Hg; [right|]; assumption.
Qed.

(** ** The deployment rows of a document, triple by triple *)

Lemma measurement_rows_inv
    (region cluster_name namespace_str timestamp scenario action m : value)
    (rows : list (dict value)) :
  measurement_rows region cluster_name namespace_str timestamp scenario action m
  = Ok rows ->
  mapM (deployment_row region cluster_name namespace_str timestamp
          (field "timestamp" timestamp m) scenario action)
       (deployments_of m) = Ok rows /\
  py_get m "timestamp" timestamp = Ok (field "timestamp" timestamp m).
Proof.
  unfold measurement_rows. intros H. inv_binds H.
  assert (Hts := E0). apply py_get_field in E0. subst x0.
  apply py_get_field in E. subst x.
  unfold deployments_of.
  destruct (field "deployments" (VDict []) m); try discriminate.
  injection E1 as <-. split; assumption.
Qed.

Lemma falsy_no_deployments (v : value) : truthy v = false -> deployments_of v = [].
Proof.
  destruct v as [| | | | |l|d]; try reflexivity.
  destruct d; [reflexivity | discriminate].
Qed.

Lemma falsy_iter (v : value) (ms : list value) :
  truthy v = false -> py_iter v = Ok ms -> ms = [].
Proof.
  destruct v as [| | | |s|l|d]; simpl; try discriminate.
  - destruct s; [|discriminate]. intros _ [= <-]. reflexivity.
  - destruct l; [|discriminate]. intros _ [= <-]. reflexivity.
  - destruct d; [|discriminate]. intros _ [= <-]. reflexivity.
Qed.

(** A non-empty collection the loop gets through is a list: the items of a
    [str] or of a [dict] are strings, and a string has no [get]. *)
Lemma truthy_iter (g : value -> result (list (dict value)))
    (v : value) (ms : list value) (rss : list (list (dict value))) :
  (forall s, g (VStr s) = Raise AttributeError) ->
  truthy v = true -> py_iter v = Ok ms -> mapM g ms = Ok rss ->
  exists m ms', v = VList (m :: ms') /\ ms = m :: ms'.
Proof.
  intros Hg Hv Hi Hm.
  destruct v as [| | | |s|l|d]; simpl in Hi; try discriminate; injection Hi as <-.
  - destruct s; [discriminate|]. simpl in Hm. rewrite Hg in Hm. discriminate.
  - destruct l as [|m ms']; [discriminate|]. eauto.
  - destruct d as [|[k x] d]; [discriminate|]. simpl in Hm. rewrite Hg in Hm.
    discriminate.
Qed.

Lemma deployment_rows_by_triple (data : value) (rows : list (dict value)) :
  deployment_rows data = Ok rows ->
  mapM (triple_row data) (triples data) = Ok rows.
Proof.
  unfold deployment_rows. intros H. inv_binds H. injection H as <-.
  rename x into timestamp, v into region, v0 into cluster_name, x0 into args,
    x1 into scenario, x2 into action, x3 into namespaces, x4 into namespace_str,
    x5 into measurements, x6 into ms, x7 into rowss.
  set (g := measurement_rows region cluster_name namespace_str timestamp
              scenario action) in *.
  set (items := fun m : value => map (pair m) (deployments_of m)).
  assert (Hrow : forall m rs, g m = Ok rs -> mapM (triple_row data) (items m) = Ok rs).
  { intros m rs Hm. apply measurement_rows_inv in Hm as [Hm Hts].
    unfold items. rewrite mapM_map. rewrite <- Hm. apply mapM_ext_in.
    intros e _. unfold triple_row.
    rewrite E, E0. simpl. rewrite E1. simpl. rewrite E2, E3. simpl.
    rewrite E4. simpl. rewrite E5. simpl. rewrite Hts. reflexivity. }
  assert (Hcoll : flat_map items ms = triples data).
  { unfold triples. fold items.
    unfold measurements_for_rows in E6. apply bind_Ok in E6 as [x [Emo H]].
    unfold measurements_of in Emo. apply py_or_Ok in Emo as [m1 [Em1 Hm1]].
    assert (Hd := Em1). apply py_get_Ok in Hd as [d [-> _]].
    apply py_get_field in Em1.
    assert (Hstr : forall s, g (VStr s) = Raise AttributeError) by reflexivity.
    unfold collection_of. rewrite <- Em1.
    destruct (truthy m1) eqn:T1.
    - subst x. rewrite T1 in H. simpl in H. injection H as <-.
      destruct (truthy_iter g m1 ms rowss Hstr T1 E7 E8) as [m [ms' [-> ->]]].
      reflexivity.
    - apply py_get_field in Hm1. rewrite <- Hm1.
      replace (match m1 with VList (m :: ms0) => m :: ms0 | _ =>
                 match x with VList (m :: ms0) => m :: ms0 | _ =>
                   match PyDict.lookup "measurements_post" d with
                   | Some post => [post] | None => [] end end end)
        with (match x with VList (m :: ms0) => m :: ms0 | _ =>
                   match PyDict.lookup "measurements_post" d with
                   | Some post => [post] | None => [] end end)
        by (destruct m1 as [| | | | |[|? ?]|]; try reflexivity; discriminate).
      destruct (truthy x) eqn:T2; simpl in H.
      + injection H as <-.
        destruct (truthy_iter g x ms rowss Hstr T2 E7 E8) as [m [ms' [-> ->]]].
        reflexivity.
      +
        replace (match x with VList (m :: ms0) => m :: ms0 | _ =>
                   match PyDict.lookup "measurements_post" d with
                   | Some post => [post] | None => [] end end)
          with (match PyDict.lookup "measurements_post" d with
                | Some post => [post] | None => [] end)
          by (destruct x as [| | | | |[|? ?]|]; try reflexivity; discriminate).
        destruct (PyDict.lookup "measurements_post" d) as [post|] eqn:P.
        * destruct (truthy post) eqn:T3; injection H as <-.
          -- simpl in E7. injection E7 as <-. simpl. rewrite app_nil_r. reflexivity.
          -- rewrite (falsy_iter x ms T2 E7). simpl. unfold items.
             rewrite (falsy_no_deployments post T3). reflexivity.
        * simpl in H. injection H as <-. rewrite (falsy_iter x ms T2 E7). reflexivity. }
  rewrite <- Hcoll.
  apply (mapM_flat_map g items (triple_row data)); [|assumption].
  intros m rs _. apply Hrow.
Qed.

Lemma deployment_row_columns
    (region cluster_name namespace_str timestamp measurement_timestamp
       scenario action : value)
    (key : string) (observation : value) (row : dict value) :
  deployment_row region cluster_name namespace_str timestamp
    measurement_timestamp scenario action (key, observation) = Ok row ->
  PyDict.lookup "timestamp" row = Some timestamp /\
  PyDict.lookup "measurement_timestamp" row = Some measurement_timestamp /\
  PyDict.lookup "deployment_name" row = Some (field "name" (VStr key) observation).
Proof.
  unfold deployment_row. intros H. inv_binds H. injection H as <-.
  apply py_get_field in E. subst x.
  repeat split; reflexivity.
Qed.

Lemma run_timestamp_level (data ts : value) :
  run_timestamp data = Ok ts -> ts = run_level_timestamp data.
Proof.
  unfold run_timestamp, run_level_timestamp. intros H.
  apply py_or_Ok in H as [t [Et H]].
  apply py_get_field in Et. subst t.
  destruct (truthy _); [assumption|].
  apply py_get_field in H. assumption.
Qed.

Lemma triple_row_columns (data m : value) (key : string) (observation : value)
    (row : dict value) :
  triple_row data (m, (key, observation)) = Ok row ->
  PyDict.lookup "timestamp" row = Some (run_level_timestamp data) /\
  PyDict.lookup "measurement_timestamp" row
    = Some (field "timestamp" (run_level_timestamp data) m) /\
  PyDict.lookup "deployment_name" row = Some (field "name" (VStr key) observation).
Proof.
  unfold triple_row. intros H. do 8 inv_bind H.
  apply run_timestamp_level in E. subst x.
  apply py_get_field in E6. subst x5.
  apply deployment_row_columns in H. exact H.
Qed.

Lemma deployments_rows_by_triple (json_load : string -> result value)
    (json_files : list string) (rows : list (dict value)) :
  deployments_rows json_load json_files = Ok rows ->
  mapM (fun t => triple_row (fst t) (snd t)) (run_triples json_load json_files)
  = Ok rows.
Proof.
  intros H. unfold deployments_rows in H. inv_binds H. injection H as <-.
  unfold run_triples.
  eapply mapM_flat_map; [|exact E].
  intros f rs _ Hf. cbv beta in Hf. inv_bind Hf. rewrite E0.
  rewrite mapM_map. simpl. apply deployment_rows_by_triple. assumption.
Qed.

(** C6: the deployments export has exactly one row per (run, measurement,
    deployment) triple: the rows are the rows of the triples of all input
    files, every measurement of each run and every entry of its deployments
    mapping, one each and in that order. *)
Theorem one_row_per_triple (json_load : string -> result value)
    (json_files : list string) (rows : list (dict value)) :
  deployments_rows json_load json_files = Ok rows ->
  mapM (fun t => triple_row (fst t) (snd t)) (run_triples json_load json_files)
  = Ok rows /\
  List.length rows = List.length (run_triples json_load json_files) /\
  Forall2 (fun t row => PyDict.lookup "deployment_name" row = Some (triple_name t))
          (run_triples json_load json_files) rows.
Proof.
  intros H. apply deployments_rows_by_triple in H.
  split; [exact H|]. split; [apply (mapM_length _ _ _ H)|].
  apply mapM_Forall2 in H.
  eapply Forall2_impl; [|exact H].
  intros [data [m [key observation]]] row Hrow.
  simpl in Hrow. apply triple_row_columns in Hrow. apply Hrow.
Qed.

(** C7: in every deployment row, [measurement_timestamp] is the timestamp
    of the measurement when the measurement carries one, and the run-level
    timestamp (the [timestamp] field, else [start_time], else empty) when it
    carries none. *)
Theorem measurement_timestamp_default (data : value) (rows : list (dict value)) :
  deployment_rows data = Ok rows ->
  run_timestamp data = Ok (run_level_timestamp data) /\
  Forall2 (fun t row =>
             let measurement := fst t in
             PyDict.lookup "measurement_timestamp" row
             = Some (field "timestamp" (run_level_timestamp data) measurement) /\
             forall entries,
               measurement = VDict entries ->
               match PyDict.lookup "timestamp" entries with
               | Some own => PyDict.lookup "measurement_timestamp" row = Some own
               | None => PyDict.lookup "measurement_timestamp" row
                         = Some (run_level_timestamp data)
               end)
          (triples data) rows.
Proof.
  intros H. split.
  - unfold deployment_rows in H. inv_bind H.
    rewrite E. f_equal. apply run_timestamp_level. assumption.
  - apply deployment_rows_by_triple in H. apply mapM_Forall2 in H.
    eapply Forall2_impl; [|exact H].
    intros [m [key observation]] row Hrow.
    apply triple_row_columns in Hrow as [_ [Hts _]]. cbv zeta. simpl fst.
    split; [exact Hts|].
    intros entries ->. simpl in Hts.
    destruct (PyDict.lookup "timestamp" entries); exact Hts.
Qed.

Lemma one_row_per_triple_witness :
  exists rows,
    deployments_rows Samples.two_files ["out/a.json"; "out/b.json"] = Ok rows /\
    mapM (fun t => triple_row (fst t) (snd t))
         (run_triples Samples.two_files ["out/a.json"; "out/b.json"]) = Ok rows /\
    List.length rows = 4 /\
    map (PyDict.lookup "deployment_name") rows
    = [Some (VStr "a"); Some (VStr "bee"); Some (VStr "a"); Some (VStr "web")].
Proof.
  eexists. split; [reflexivity|].
  destruct (one_row_per_triple Samples.two_files ["out/a.json"; "out/b.json"] _
              eq_refl) as [Hm [Hl _]].
  split; [exact Hm|]. split; [exact Hl | reflexivity].
Defined.

Lemma measurement_timestamp_default_witness :
  exists rows,
    deployment_rows (VDict Samples.both_collections) = Ok rows /\
    run_timestamp (VDict Samples.both_collections) = Ok (VStr "t0") /\
    map (PyDict.lookup "measurement_timestamp") rows
    = [Some (VStr "t1"); Some (VStr "t1"); Some (VStr "t0")].
Proof.
  eexists. split; [reflexivity|].
  destruct (measurement_timestamp_default (VDict Samples.both_collections) _
              eq_refl) as [Hts _].
  split; [exact Hts | reflexivity].
Defined.

(** ** Precedence of [measurements] *)

Lemma lookup_set_other {V : Type} (k k' : string) (v : V) (d : dict V) :
  k <> k' -> PyDict.lookup k (PyDict.set k' v d) = PyDict.lookup k d.
Proof.
  intros Hne. induction d as [|[k0 v0] d IH]; simpl.
  - destruct (String.eqb_spec k' k); [congruence | reflexivity].
  - destruct (String.eqb_spec k0 k') as [->|Hk0]; simpl.
    + destruct (String.eqb_spec k' k); [congruence | reflexivity].
    + destruct (String.eqb_spec k0 k); [reflexivity | exact IH].
Qed.

Lemma list_sum_flat_map {A B : Type} (f : A -> list B) (l : list A) :
  List.length (flat_map f l) = list_sum (map (fun a => List.length (f a)) l).
Proof.
  induction l as [|a l IH]; simpl; [reflexivity|].
  rewrite length_app, IH. reflexivity.
Qed.

(** C4: when [measurements] and [measurements_taken] are both present and
    non-empty lists, the deployment rows are built from the [measurements]
    entries only: there are as many rows as the deployments mappings of the
    [measurements] entries have entries together, and the rows do not depend
    on what [measurements_taken] holds. *)
Theorem measurements_take_precedence
    (d : dict value) (m t : value) (ms ts : list value) (rows : list (dict value)) :
  PyDict.lookup "measurements" d = Some (VList (m :: ms)) ->
  PyDict.lookup "measurements_taken" d = Some (VList (t :: ts)) ->
  deployment_rows (VDict d) = Ok rows ->
  collection_of (VDict d) = m :: ms /\
  List.length rows = list_sum (map deployments_size (m :: ms)) /\
  forall other,
    deployment_rows (VDict (PyDict.set "measurements_taken" other d)) = Ok rows.
Proof.
  intros Hm Ht H.
  assert (Hc : collection_of (VDict d) = m :: ms).
  { unfold collection_of. simpl. rewrite Hm. reflexivity. }
  split; [exact Hc|]. split.
  - apply deployment_rows_by_triple in H. apply mapM_length in H.
    rewrite H. unfold triples. rewrite Hc.
    rewrite list_sum_flat_map. apply f_equal, map_ext.
    intros a. unfold deployments_size. apply length_map.
  - intros other. rewrite <- H.
    unfold deployment_rows, run_timestamp, cluster_identity, measurements_for_rows,
      measurements_of, py_or, py_get.
    rewrite !lookup_set_other by discriminate.
    rewrite Hm. reflexivity.
Qed.

Lemma measurements_take_precedence_witness :
  exists rows,
    deployment_rows (VDict Samples.both_collections) = Ok rows /\
    List.length rows = 3 /\
    deployment_rows
      (VDict (PyDict.set "measurements_taken" VNone Samples.both_collections))
    = Ok rows.
Proof.
  eexists. split; [reflexivity|].
  destruct (measurements_take_precedence Samples.both_collections _ _ _ _ _
              eq_refl eq_refl eq_refl) as [_ [Hl Hi]].
  split; [exact Hl | exact (Hi VNone)].
Defined.

(** ** Legacy runs with [measurements_pre] only *)

Lemma collection_of_pre_only (d : dict value) :
  nonempty_list "measurements" d = false ->
  nonempty_list "measurements_taken" d = false ->
  PyDict.lookup "measurements_post" d = None ->
  collection_of (VDict d) = [].
Proof.
  unfold nonempty_list, collection_of, field. intros Hm Ht Hp. rewrite Hp.
  destruct (PyDict.lookup "measurements" d) as [[| | | | |[|? ?]|]|];
    try discriminate;
    destruct (PyDict.lookup "measurements_taken" d) as [[| | | | |[|? ?]|]|];
    try discriminate; reflexivity.
Qed.

Lemma first_of_non_list (v : value) :
  truthy v = true ->
  (forall m ms, v <> VList (m :: ms)) ->
  (exists e, py_first v = Raise e) \/ (exists s, py_first v = Ok (VStr s)).
Proof.
  intros Hv Hl.
  destruct v as [|b|n|r|s|l|kvs]; simpl; try (left; eexists; reflexivity).
  - destruct s; [discriminate|]. right. eexists. reflexivity.
  - destruct l as [|m ms]; [discriminate|]. destruct (Hl m ms eq_refl).
Qed.

Lemma field_not_nonempty_list (k : string) (d : dict value) :
  nonempty_list k d = false ->
  forall m ms, field k (VList []) (VDict d) <> VList (m :: ms).
Proof.
  unfold nonempty_list, field. intros H m ms.
  destruct (PyDict.lookup k d) as [v|]; [|discriminate].
  intros ->. discriminate.
Qed.

Lemma field_falsy_absent_or_empty (k : string) (default : value) (d : dict value) :
  truthy (field k default (VDict d)) = false -> absent_or_empty k d = true.
Proof.
  unfold field, absent_or_empty.
  destruct (PyDict.lookup k d); [|reflexivity].
  intros ->. reflexivity.
Qed.

(** A non-empty collection that is not a list stops the summary export. *)
Lemma cluster_and_count_selects (d : dict value) (cluster_data : value) (count : nat) :
  nonempty_list "measurements" d = false ->
  nonempty_list "measurements_taken" d = false ->
  cluster_and_count (VDict d) = Ok (cluster_data, count) ->
  absent_or_empty "measurements" d = true /\
  absent_or_empty "measurements_taken" d = true.
Proof.
  intros Hm Ht H.
  unfold cluster_and_count in H. apply bind_Ok in H as [sel [Esel H]].
  unfold measurements_of in Esel. apply py_or_Ok in Esel as [m1 [E1 Hsel]].
  apply py_get_field in E1.
  assert (Hfalsy : truthy sel = false /\ truthy m1 = false /\
                   sel = field "measurements_taken" (VList []) (VDict d)).
  { destruct (truthy sel) eqn:Tsel.
    - exfalso.
      assert (Hnl : forall m ms, sel <> VList (m :: ms)).
      { destruct (truthy m1).
        + subst sel m1. apply field_not_nonempty_list. assumption.
        + apply py_get_field in Hsel. subst sel.
          apply field_not_nonempty_list. assumption. }
      destruct (first_of_non_list sel Tsel Hnl) as [[e He]|[s Hs]].
      + rewrite He in H. discriminate.
      + rewrite Hs in H. discriminate.
    - destruct (truthy m1) eqn:T1.
      + subst sel. congruence.
      + apply py_get_field in Hsel. auto. }
  destruct Hfalsy as [Tsel [T1 ->]]. subst m1.
  split; eapply field_falsy_absent_or_empty; eassumption.
Qed.

Lemma absent_or_empty_list_field (k : string) (d : dict value) :
  absent_or_empty_list k d = true -> field k (VList []) (VDict d) = VList [].
Proof.
  unfold absent_or_empty_list, field.
  destruct (PyDict.lookup k d) as [[| | | | |[|? ?]|]|]; try discriminate; reflexivity.
Qed.

(** C10: a legacy document with a [measurements_pre] object, no non-empty
    [measurements] list, no non-empty [measurements_taken] list and no
    [measurements_post] gives no deployment row, although its summary row
    draws [node_count] and [eligible_node_count] from the cluster block of
    [measurements_pre]. *)
Theorem pre_only_gives_no_rows (d pre : dict value) :
  PyDict.lookup "measurements_pre" d = Some (VDict pre) ->
  nonempty_list "measurements" d = false ->
  nonempty_list "measurements_taken" d = false ->
  PyDict.lookup "measurements_post" d = None ->
  (forall rows, deployment_rows (VDict d) = Ok rows -> rows = []) /\
  (forall row,
     summary_row (VDict d) = Ok row ->
     let pre_cluster := field "cluster" (VDict []) (VDict pre) in
     PyDict.lookup "node_count" row
       = Some (field "node_count" (VStr "") pre_cluster) /\
     PyDict.lookup "eligible_node_count" row
       = Some (field "eligible_node_count" (VStr "") pre_cluster)) /\
  (absent_or_empty_list "measurements" d = true ->
   absent_or_empty_list "measurements_taken" d = true ->
   forall row, summary_row (VDict d) = Ok row -> deployment_rows (VDict d) = Ok []).
Proof.
  intros Hpre Hm Ht Hpost. split; [|split].
  - intros rows H. apply deployment_rows_by_triple in H.
    unfold triples in H. rewrite (collection_of_pre_only d Hm Ht Hpost) in H.
    simpl in H. congruence.
  - intros row H.
    destruct (summary_row_counts _ _ H) as [cluster_data [count [Hcc [Hn [He _]]]]].
    destruct (cluster_and_count_selects d _ _ Hm Ht Hcc) as [Am At].
    destruct (cluster_and_count_legacy d _ _ Am At Hcc) as [Hcluster _].
    unfold field at 2 3 in Hcluster. simpl in Hcluster.
    rewrite Hpost, Hpre in Hcluster. simpl in Hcluster.
    cbv zeta. subst cluster_data. split; assumption.
  - intros Lm Lt row H.
    unfold summary_row in H. do 8 inv_bind H.
    unfold deployment_rows.
    rewrite E0. cbn [bind]. rewrite E. cbn [bind]. rewrite E2. cbn [bind].
    rewrite E3. cbn [bind]. rewrite E4. cbn [bind]. rewrite E5. cbn [bind].
    rewrite E6. cbn [bind].
    unfold measurements_for_rows, measurements_of, py_or, py_get.
    change (match PyDict.lookup "measurements" d with
            | Some x => x | None => VList [] end)
      with (field "measurements" (VList []) (VDict d)).
    change (match PyDict.lookup "measurements_taken" d with
            | Some x => x | None => VList [] end)
      with (field "measurements_taken" (VList []) (VDict d)).
    rewrite (absent_or_empty_list_field _ _ Lm), (absent_or_empty_list_field _ _ Lt).
    rewrite Hpost. reflexivity.
Qed.

Lemma pre_only_gives_no_rows_witness :
  exists row,
    deployment_rows (VDict Samples.pre_only) = Ok [] /\
    summary_row (VDict Samples.pre_only) = Ok row /\
    PyDict.lookup "node_count" row = Some (VInt 8).
Proof.
  eexists.
  destruct (pre_only_gives_no_rows Samples.pre_only _
              eq_refl eq_refl eq_refl eq_refl) as [_ [Hs Hd]].
  split; [exact (Hd eq_refl eq_refl _ eq_refl)|].
  split; [reflexivity|]. exact (proj1 (Hs _ eq_refl)).
Defined.

(** ** Writing a table *)

Lemma in_lookup {V : Type} (k : string) (v : V) (d : dict V) :
  In (k, v) d -> PyDict.lookup k d <> None.
Proof.
  induction d as [|[k0 v0] d IH]; simpl; [tauto|].
  intros [[= -> ->]|H].
  - rewrite String.eqb_refl. discriminate.
  - destruct (String.eqb k0 k); [discriminate | apply IH; exact H].
Qed.

Lemma lookup_distinct {V : Type} (k : string) (v : V) (d : dict V) :
  PyDict.distinct_keys d = true -> In (k, v) d -> PyDict.lookup k d = Some v.
Proof.
  induction d as [|[k0 v0] d IH]; simpl; [tauto|].
  destruct (PyDict.lookup k0 d) eqn:E0; [discriminate|].
  intros Hd [[= -> ->]|H].
  - rewrite String.eqb_refl. reflexivity.
  - destruct (String.eqb_spec k0 k) as [->|Hne]; [|apply IH; assumption].
    destruct (in_lookup k v d H E0).
Qed.

Lemma distinct_keys_same {V W : Type} (d : dict V) (d' : dict W) :
  PyDict.keys d = PyDict.keys d' ->
  PyDict.distinct_keys d = PyDict.distinct_keys d'.
Proof.
  assert (Hl : forall k (a : dict V) (b : dict W),
             PyDict.keys a = PyDict.keys b ->
             (PyDict.lookup k a = None <-> PyDict.lookup k b = None)).
  { intros k a. induction a as [|[k0 v0] a IH]; intros [|[k1 v1] b]; simpl;
      try discriminate; [tauto|].
    intros [= -> Hk]. destruct (String.eqb k1 k); [split; discriminate | apply IH; exact Hk]. }
  revert d'. induction d as [|[k0 v0] d IH]; intros [|[k1 v1] d']; simpl;
    try discriminate; [reflexivity|].
  intros [= -> Hk]. specialize (Hl k1 d d' Hk).
  destruct (PyDict.lookup k1 d), (PyDict.lookup k1 d'); try reflexivity.
  - destruct Hl as [_ Hl]. discriminate (Hl eq_refl).
  - destruct Hl as [Hl _]. discriminate (Hl eq_refl).
  - apply IH. exact Hk.
Qed.

(** A row written under its own keys: no key is refused, and the cells are
    its values in order. *)
Lemma dictwriter_writerow_own_keys (row : dict value) :
  PyDict.distinct_keys row = true ->
  Csv.dictwriter_writerow (PyDict.keys row) row = Ok (Csv.writerow (cells row)).
Proof.
  intros Hd. unfold Csv.dictwriter_writerow, Csv.dict_to_list.
  replace (forallb _ (PyDict.keys row)) with true.
  2:{ symmetry. apply forallb_forall. intros k Hk. apply existsb_exists.
      exists k. split; [exact Hk | apply String.eqb_refl]. }
  simpl. unfold cells, PyDict.keys. rewrite !map_map. do 2 f_equal.
  apply map_ext_in. intros [k v] Hin. simpl.
  rewrite (lookup_distinct k v row Hd Hin). reflexivity.
Qed.

Lemma writerows_same_keys (cols : list string) (rows : list (dict value)) :
  Forall (fun row => PyDict.keys row = cols /\ PyDict.distinct_keys row = true) rows ->
  Csv.writerows cols rows = (csv_text (map cells rows), None).
Proof.
  induction 1 as [|row rows [Hk Hd] _ IH]; simpl; [reflexivity|].
  rewrite <- Hk at 1. rewrite (dictwriter_writerow_own_keys row Hd).
  rewrite IH. reflexivity.
Qed.

Lemma write_table_same_keys (noun table : string) (cols : list string)
    (rows : list (dict value)) (output_file : string) :
  Csv.writeheader cols = Ok (Csv.writerow cols) ->
  Forall (fun row => PyDict.keys row = cols /\ PyDict.distinct_keys row = true) rows ->
  write_table noun table rows output_file
  = match rows with
    | [] => ([Log WARNING ("No data to write to " ++ table ++ " CSV")%string], Ok tt)
    | _ :: _ =>
        ([WriteFile output_file (table_text rows);
          Log INFO ("Wrote " ++ str_nat (List.length rows) ++ " " ++ noun
                    ++ " rows to " ++ output_file)%string], Ok tt)
    end.
Proof.
  intros Hh Hrows. destruct rows as [|first rest]; [reflexivity|].
  unfold write_table, table_text.
  assert (Hk : PyDict.keys first = cols) by (inversion Hrows; tauto).
  rewrite Hk, Hh, (writerows_same_keys cols _ Hrows). reflexivity.
Qed.

Lemma summary_row_keys (data : value) (row : dict value) :
  summary_row data = Ok row -> PyDict.keys row = summary_columns.
Proof.
  unfold summary_row. intros H. inv_binds H. injection H as <-. reflexivity.
Qed.

Lemma deployment_row_keys
    (region cluster_name namespace_str timestamp measurement_timestamp
       scenario action : value) (entry : string * value) (row : dict value) :
  deployment_row region cluster_name namespace_str timestamp
    measurement_timestamp scenario action entry = Ok row ->
  PyDict.keys row = deployment_columns.
Proof.
  destruct entry as [key observation].
  unfold deployment_row. intros H. inv_binds H. injection H as <-. reflexivity.
Qed.

Lemma triple_row_keys (data : value) (t : value * (string * value))
    (row : dict value) :
  triple_row data t = Ok row -> PyDict.keys row = deployment_columns.
Proof.
  destruct t as [m entry]. unfold triple_row. intros H. do 8 inv_bind H.
  eapply deployment_row_keys. exact H.
Qed.

Lemma columns_distinct {V : Type} (cols : list string) (row : dict V) :
  PyDict.distinct_keys (map (fun k => (k, tt)) cols) = true ->
  PyDict.keys row = cols -> PyDict.distinct_keys row = true.
Proof.
  intros Hc Hk. rewrite <- Hc. apply distinct_keys_same.
  rewrite Hk. unfold PyDict.keys. rewrite map_map. simpl. symmetry. apply map_id.
Qed.

Lemma summary_rows_keys (json_load : string -> result value)
    (json_files : list string) (rows : list (dict value)) :
  summary_rows json_load json_files = Ok rows ->
  Forall (fun row => PyDict.keys row = summary_columns /\
                     PyDict.distinct_keys row = true) rows /\
  List.length rows = List.length json_files.
Proof.
  intros H. unfold summary_rows in H. split; [|apply (mapM_length _ _ _ H)].
  apply mapM_Forall2 in H.
  induction H as [|f row fs rows Hrow _ IH]; constructor; [|exact IH].
  cbv beta in Hrow. inv_bind Hrow. apply summary_row_keys in Hrow.
  split; [exact Hrow|]. apply (columns_distinct summary_columns); [reflexivity | exact Hrow].
Qed.

Lemma deployments_rows_keys (json_load : string -> result value)
    (json_files : list string) (rows : list (dict value)) :
  deployments_rows json_load json_files = Ok rows ->
  Forall (fun row => PyDict.keys row = deployment_columns /\
                     PyDict.distinct_keys row = true) rows.
Proof.
  intros H. apply deployments_rows_by_triple in H. apply mapM_Forall2 in H.
  induction H as [|t row ts rows Hrow _ IH]; constructor; [|exact IH].
  apply triple_row_keys in Hrow.
  split; [exact Hrow|].
  apply (columns_distinct deployment_columns); [reflexivity | exact Hrow].
Qed.

(** ** Reading back what the writer wrote *)

Module RoundTrip.
Import PyRepr Csv CsvReader.

Lemma append_assoc (a b c : string) : ((a ++ b) ++ c = a ++ (b ++ c))%string.
Proof. induction a as [|x a IH]; simpl; [reflexivity | rewrite IH; reflexivity]. Qed.

Lemma append_nil_r (a : string) : (a ++ "" = a)%string.
Proof. induction a as [|x a IH]; simpl; [reflexivity | rewrite IH; reflexivity]. Qed.

Lemma append_snoc (a : string) (c : ascii) (b : string) :
  ((a ++ String c "") ++ b = a ++ String c b)%string.
Proof. rewrite append_assoc. reflexivity. Qed.

(** A character that is no line break is fed and the line goes on. *)
Lemma read_char (p : parser) (records : list (list string)) (open : bool)
    (c : ascii) (rest : string) :
  Ascii.eqb c LF = false -> Ascii.eqb c CR = false ->
  read p records open (String c rest)
  = p1 <- process_char p (Char c) ;; read p1 records true rest.
Proof. intros H1 H2. simpl. rewrite H1, H2. reflexivity. Qed.

Lemma special_false (c : ascii) :
  special c = false ->
  Ascii.eqb c delimiter = false /\ Ascii.eqb c dquote = false /\
  Ascii.eqb c CR = false /\ Ascii.eqb c LF = false.
Proof.
  unfold special. intros H.
  apply orb_false_iff in H as [H H4]. apply orb_false_iff in H as [H H3].
  apply orb_false_iff in H as [H1 H2]. auto.
Qed.

(** Inside an unquoted field: plain characters pile up. *)
Lemma read_plain (f : string) :
  needs_quotes f = false ->
  forall acc fs records rest,
    read (Parser IN_FIELD acc fs) records true (f ++ rest)
    = read (Parser IN_FIELD (acc ++ f) fs) records true rest.
Proof.
  induction f as [|c f IH]; simpl; intros Hq acc fs records rest.
  - rewrite append_nil_r. reflexivity.
  - apply orb_false_iff in Hq as [Hc Hf].
    apply special_false in Hc as [Hd [Hdq [Hcr Hlf]]].
    rewrite Hlf, Hcr. unfold process_char. simpl.
    unfold is_newline. rewrite Hlf, Hcr, Hd. simpl.
    unfold add_char. simpl. rewrite (IH Hf). rewrite append_snoc. reflexivity.
Qed.

Lemma read_lf (p : parser) (records : list (list string)) (open : bool)
    (rest : string) :
  read p records open (String LF rest)
  = p1 <- process_char p (Char LF) ;;
    end_of_line p1 records (fun p' records' => read p' records' false rest).
Proof. reflexivity. Qed.

Lemma read_crlf (p : parser) (records : list (list string)) (open : bool)
    (rest : string) :
  read p records open (String CR (String LF rest))
  = p1 <- process_char p (Char CR) ;;
    p2 <- process_char p1 (Char LF) ;;
    end_of_line p2 records (fun p' records' => read p' records' false rest).
Proof. reflexivity. Qed.

Lemma read_cr (p : parser) (records : list (list string)) (open : bool)
    (c : ascii) (rest : string) :
  Ascii.eqb c LF = false ->
  read p records open (String CR (String c rest))
  = p1 <- process_char p (Char CR) ;;
    end_of_line p1 records
      (fun p' records' => read p' records' false (String c rest)).
Proof.
  intros H. cbn [read].
  replace (Ascii.eqb CR LF) with false by reflexivity.
  replace (Ascii.eqb CR CR) with true by reflexivity.
  rewrite H. reflexivity.
Qed.

Lemma in_quoted_char (acc : string) (fs : list string) (c : ascii) :
  Ascii.eqb c dquote = false ->
  process_char (Parser IN_QUOTED_FIELD acc fs) (Char c)
  = Ok (Parser IN_QUOTED_FIELD (acc ++ String c "") fs).
Proof. intros H. unfold process_char. cbn [state]. rewrite H. reflexivity. Qed.

Lemma in_quoted_quote (acc : string) (fs : list string) :
  process_char (Parser IN_QUOTED_FIELD acc fs) (Char dquote)
  = Ok (Parser QUOTE_IN_QUOTED_FIELD acc fs).
Proof. reflexivity. Qed.

Lemma quote_quote (acc : string) (fs : list string) :
  process_char (Parser QUOTE_IN_QUOTED_FIELD acc fs) (Char dquote)
  = Ok (Parser IN_QUOTED_FIELD (acc ++ String dquote "") fs).
Proof. reflexivity. Qed.

Lemma in_quoted_end_of_line (acc : string) (fs : list string)
    (records : list (list string))
    (continue : parser -> list (list string) -> result (list (list string))) :
  end_of_line (Parser IN_QUOTED_FIELD acc fs) records continue
  = continue (Parser IN_QUOTED_FIELD acc fs) records.
Proof. reflexivity. Qed.

Lemma double_quotes_plain (c : ascii) (g : string) :
  Ascii.eqb c dquote = false ->
  double_quotes (String c g) = String c (double_quotes g).
Proof. intros H. cbn [double_quotes]. rewrite H. reflexivity. Qed.

Lemma double_quotes_quote (g : string) :
  double_quotes (String dquote g) = String dquote (String dquote (double_quotes g)).
Proof. reflexivity. Qed.

Lemma quoted_content_nil : quoted_content "".
Proof.
  intros acc fs records open rest. cbn [double_quotes append].
  rewrite read_char by reflexivity. rewrite in_quoted_quote. cbn [bind].
  rewrite append_nil_r. reflexivity.
Qed.

(** One more character in front; a CR takes the LF behind it along, so the
    step looks two characters ahead. *)
Lemma quoted_content_step (c : ascii) (g : string) :
  quoted_content g ->
  (forall d g', g = String d g' -> quoted_content g') ->
  quoted_content (String c g).
Proof.
  intros Hg Hg' acc fs records open rest.
  destruct (Ascii.eqb_spec c dquote) as [->|Hdq].
  - (* a quote, written twice *)
    rewrite double_quotes_quote. cbn [append].
    rewrite read_char by reflexivity. rewrite in_quoted_quote. cbn [bind].
    rewrite read_char by reflexivity. rewrite quote_quote. cbn [bind].
    rewrite Hg, append_snoc. reflexivity.
  - apply Ascii.eqb_neq in Hdq. rewrite (double_quotes_plain c g Hdq).
    cbn [append].
    destruct (Ascii.eqb_spec c LF) as [->|Hlf].
    + (* a line feed closes the line; the field stays open *)
      rewrite read_lf, (in_quoted_char _ _ _ Hdq). cbn [bind].
      rewrite in_quoted_end_of_line, Hg, append_snoc. reflexivity.
    + apply Ascii.eqb_neq in Hlf.
      destruct (Ascii.eqb_spec c CR) as [->|Hcr].
      * destruct g as [|d g'].
        -- (* CR, then the closing quote *)
           cbn [double_quotes append].
           rewrite read_cr by reflexivity. rewrite (in_quoted_char _ _ _ Hdq).
           cbn [bind]. rewrite in_quoted_end_of_line.
           rewrite (quoted_content_nil _ _ _ _ rest), !append_nil_r. reflexivity.
        -- destruct (Ascii.eqb_spec d LF) as [->|Hdlf].
           ++ (* CR LF: both belong to the field, the line ends after them *)
              rewrite double_quotes_plain by reflexivity. cbn [append].
              rewrite read_crlf, (in_quoted_char _ _ _ Hdq). cbn [bind].
              rewrite in_quoted_char by reflexivity. cbn [bind].
              rewrite in_quoted_end_of_line.
              rewrite (Hg' LF g' eq_refl), !append_snoc. reflexivity.
           ++ (* a lone CR closes the line *)
              apply Ascii.eqb_neq in Hdlf.
              assert (Hfirst : exists rest',
                         (double_quotes (String d g') ++ String dquote rest)%string
                         = String d rest').
              { cbn [double_quotes]. destruct (Ascii.eqb d dquote) eqn:Ed.
                - apply Ascii.eqb_eq in Ed. subst d. eexists. reflexivity.
                - eexists. reflexivity. }
              destruct Hfirst as [rest' Hrest'].
              pose proof (Hg (acc ++ String CR "")%string fs records false rest) as Hg1.
              rewrite Hrest' in *.
              rewrite read_cr by assumption. rewrite (in_quoted_char _ _ _ Hdq).
              cbn [bind]. rewrite in_quoted_end_of_line.
              rewrite Hg1, append_snoc. reflexivity.
      * (* any other character *)
        apply Ascii.eqb_neq in Hcr.
        rewrite read_char by assumption. rewrite (in_quoted_char _ _ _ Hdq).
        cbn [bind]. rewrite Hg, append_snoc. reflexivity.
Qed.

Lemma read_quoted_content (g : string) : quoted_content g.
Proof.
  assert (H : quoted_content g /\ forall c, quoted_content (String c g)).
  { induction g as [|d g [IH1 IH2]].
    - split; [exact quoted_content_nil|].
      intros c. apply quoted_content_step; [exact quoted_content_nil | discriminate].
    - split; [apply IH2|].
      intros c. apply quoted_content_step; [apply IH2|].
      intros d' g' [= -> ->]. exact IH1. }
  apply H.
Qed.

Lemma needs_quotes_head (c : ascii) (f : string) :
  needs_quotes (String c f) = false ->
  Ascii.eqb c delimiter = false /\ Ascii.eqb c dquote = false /\
  Ascii.eqb c CR = false /\ Ascii.eqb c LF = false /\ needs_quotes f = false.
Proof.
  cbn [needs_quotes]. intros H. apply orb_false_iff in H as [Hc Hf].
  apply special_false in Hc. tauto.
Qed.

Lemma start_plain (fs : list string) (c : ascii) :
  special c = false ->
  process_char (waiting fs) (Char c) = Ok (Parser IN_FIELD (String c "") fs).
Proof.
  intros H. apply special_false in H as [Hd [Hdq [Hcr Hlf]]].
  unfold process_char, waiting, start_field, is_newline. cbn [state].
  rewrite Hlf, Hcr, Hdq, Hd. reflexivity.
Qed.

(** An unquoted field up to the character that ends it. *)
Lemma read_unquoted (f : string) (fs : list string)
    (records : list (list string)) (open : bool) (rest : string) :
  needs_quotes f = false ->
  f <> "" ->
  read (waiting fs) records open (f ++ rest)
  = read (Parser IN_FIELD f fs) records true rest.
Proof.
  intros Hq Hne. destruct f as [|c f]; [congruence|].
  apply needs_quotes_head in Hq as [Hd [Hdq [Hcr [Hlf Hf]]]].
  cbn [append]. rewrite read_char by assumption.
  rewrite start_plain by (unfold special; rewrite Hd, Hdq, Hcr, Hlf; reflexivity).
  cbn [bind]. rewrite (read_plain f Hf). reflexivity.
Qed.

(** A quoted field up to its closing quote. *)
Lemma read_quoted (f : string) (fs : list string)
    (records : list (list string)) (open : bool) (rest : string) :
  read (waiting fs) records open
       (String dquote (double_quotes f ++ String dquote "") ++ rest)
  = read (Parser QUOTE_IN_QUOTED_FIELD f fs) records true rest.
Proof.
  cbn [append]. rewrite append_assoc. cbn [append].
  rewrite read_char by reflexivity.
  replace (process_char (waiting fs) (Char dquote))
    with (Ok (Parser IN_QUOTED_FIELD "" fs)) by reflexivity.
  cbn [bind]. rewrite read_quoted_content. reflexivity.
Qed.

Lemma read_field (f : string) (fs : list string)
    (records : list (list string)) (open : bool) :
  exists p open',
    field_read f fs p /\
    (write_field f <> "" -> open' = true) /\
    (write_field f = "" -> open' = open) /\
    forall rest,
      read (waiting fs) records open (write_field f ++ rest)
      = read p records open' rest.
Proof.
  unfold write_field. destruct (needs_quotes f) eqn:Hq.
  - exists (Parser QUOTE_IN_QUOTED_FIELD f fs), true.
    split; [constructor|]. split; [reflexivity|]. split; [discriminate|].
    intros rest. apply read_quoted.
  - destruct f as [|c f].
    + exists (waiting fs), open. split; [constructor; reflexivity|].
      split; [congruence|]. split; reflexivity.
    + exists (Parser IN_FIELD (String c f) fs), true.
      split; [constructor; discriminate|]. split; [reflexivity|].
      split; [discriminate|].
      intros rest. apply read_unquoted; [assumption | discriminate].
Qed.

(** After a field, the delimiter. *)
Lemma field_then_delimiter (f : string) (fs : list string) (p : parser)
    (records : list (list string)) (open : bool) (rest : string) :
  field_read f fs p ->
  read p records open (String delimiter rest)
  = read (waiting (fs ++ [f])) records true rest.
Proof.
  intros H. rewrite read_char by reflexivity.
  destruct H as [->|Hne|]; reflexivity.
Qed.

(** After a field, the line terminator: the record is complete. *)
Lemma field_then_end (f : string) (fs : list string) (p : parser)
    (records : list (list string)) (open : bool) (rest : string) :
  field_read f fs p ->
  read p records open (lineterminator ++ rest)
  = read reset (records ++ [fs ++ [f]]) false rest.
Proof.
  intros H. unfold lineterminator. cbn [append]. rewrite read_crlf.
  destruct H as [->|Hne|]; reflexivity.
Qed.

(** The fields of a record, from the first to the line terminator. *)
Lemma read_fields (r : list string) :
  r <> [] ->
  forall fs records open rest,
    read (waiting fs) records open
         (PyStr.join (String delimiter "") (map write_field r)
          ++ lineterminator ++ rest)
    = read reset (records ++ [fs ++ r]) false rest.
Proof.
  induction r as [|f r IH]; [congruence|]. intros _ fs records open rest.
  destruct (read_field f fs records open) as [p [open' [Hp [_ [_ Hread]]]]].
  destruct r as [|f2 r].
  - cbn [map PyStr.join]. rewrite Hread. apply field_then_end. exact Hp.
  - change (PyStr.join (String delimiter "") (map write_field (f :: f2 :: r)))
      with (write_field f ++ String delimiter ""
            ++ PyStr.join (String delimiter "") (map write_field (f2 :: r)))%string.
    rewrite !append_assoc. rewrite Hread. cbn [append].
    rewrite (field_then_delimiter f fs p records open' _ Hp).
    rewrite IH by discriminate. rewrite <- app_assoc. reflexivity.
Qed.

Lemma write_field_empty (f : string) : write_field f = "" -> f = "".
Proof.
  unfold write_field. destruct (needs_quotes f); [discriminate | tauto].
Qed.

Lemma append_empty (a b : string) : (a ++ b)%string = "" -> a = "" /\ b = "".
Proof. destruct a; simpl; [tauto | discriminate]. Qed.

(** Only the record of one empty field has an empty text. *)
Lemma join_empty (f : string) (r : list string) :
  PyStr.join (String delimiter "") (map write_field (f :: r)) = "" ->
  f = "" /\ r = [].
Proof.
  destruct r as [|f2 r]; cbn [map PyStr.join].
  - intros H. split; [apply write_field_empty; exact H | reflexivity].
  - intros H. apply append_empty in H as [_ H]. discriminate.
Qed.

(** The text of a record never starts with a line break. *)
Lemma join_first (f : string) (r : list string) :
  PyStr.join (String delimiter "") (map write_field (f :: r)) <> "" ->
  exists c tail,
    PyStr.join (String delimiter "") (map write_field (f :: r)) = String c tail /\
    is_newline (Char c) = false.
Proof.
  intros Hne.
  assert (Hf : (exists c tail, write_field f = String c tail /\
                               is_newline (Char c) = false) \/ f = "").
  { unfold write_field. destruct (needs_quotes f) eqn:Hq.
    - left. eexists. eexists. split; reflexivity.
    - destruct f as [|c f]; [right; reflexivity|]. left.
      apply needs_quotes_head in Hq as [_ [_ [Hcr [Hlf _]]]].
      exists c, f. split; [reflexivity|]. unfold is_newline. rewrite Hlf, Hcr.
      reflexivity. }
  destruct Hf as [[c [tail [Hw Hc]]]| ->].
  - destruct r as [|f2 r]; cbn [map PyStr.join]; rewrite Hw.
    + exists c, tail. split; [reflexivity | exact Hc].
    + eexists c, _. split; [reflexivity | exact Hc].
  - destruct r as [|f2 r]; [destruct Hne; reflexivity|].
    eexists delimiter, _. split; reflexivity.
Qed.

Lemma read_reset_waiting (records : list (list string)) (open : bool)
    (c : ascii) (tail : string) :
  is_newline (Char c) = false ->
  read reset records open (String c tail)
  = read (waiting []) records open (String c tail).
Proof.
  intros H. cbn [read].
  replace (process_char reset (Char c)) with (process_char (waiting []) (Char c));
    [reflexivity|].
  unfold process_char. cbn [state reset waiting]. rewrite H. reflexivity.
Qed.

(** One record written, one record read. *)
Lemma read_record (r : list string) (records : list (list string)) (rest : string) :
  read reset records false (writerow r ++ rest)
  = read reset (records ++ [r]) false rest.
Proof.
  unfold writerow. rewrite append_assoc.
  destruct r as [|f r]; [reflexivity|].
  destruct (PyStr.join (String delimiter "") (map write_field (f :: r)))
    as [|c tail] eqn:Hrec.
  - apply join_empty in Hrec as [-> ->]. reflexivity.
  - rewrite <- Hrec.
    destruct (join_first f r) as [c' [tail' [Hfirst Hc']]];
      [rewrite Hrec; discriminate|].
    rewrite Hfirst. cbn [append]. rewrite (read_reset_waiting _ _ _ _ Hc').
    change (String c' (tail' ++ lineterminator ++ rest))%string
      with (String c' tail' ++ lineterminator ++ rest)%string.
    rewrite <- Hfirst. rewrite read_fields by discriminate. reflexivity.
Qed.

Lemma read_csv_text (written records : list (list string)) :
  read reset records false (csv_text written) = Ok (records ++ written).
Proof.
  revert records. induction written as [|r written IH]; intros records.
  - cbn. rewrite app_nil_r. reflexivity.
  - cbn [csv_text fold_right]. rewrite read_record.
    change (fold_right _ _ written) with (csv_text written).
    rewrite IH, <- app_assoc. reflexivity.
Qed.

End RoundTrip.

(** Every CSV text the writer produces reads back as the records written. *)
Lemma reader_csv_text (records : list (list string)) :
  CsvReader.reader (csv_text records) = Ok records.
Proof. unfold CsvReader.reader. rewrite RoundTrip.read_csv_text. reflexivity. Qed.



(** A record with a delimiter, a quote, a line break and an empty field in
    its fields, after a record with no field and one with a single empty
    field. *)
Example reader_awkward_records :
  let q := String PyRepr.dquote "" in
  let br := String PyRepr.CR (String PyRepr.LF "") in
  let records :=
    [ []; [""]; ["a,b"; (q ++ "hi" ++ q)%string; ("one" ++ br ++ "two")%string; ""] ] in
  CsvReader.reader (csv_text records) = Ok records.
Proof. reflexivity. Qed.

(** ** Integer tokens of the input *)








(** C8: a table with no row is not written, neither empty nor as a header
    alone, and a warning is logged; a table with rows is written: the file
    starts with the line of the column names, the keys of the first row,
    and reads back, with [csv.reader], as that header and one record per
    row, in order.  When the deployments table has no row, the summary
    table is written all the same, and the run ends with status 0. *)
Theorem empty_table_not_written (json_load : string -> result value)
    (json_files : list string) :
  (forall rows output_file,
     summary_rows json_load json_files = Ok rows ->
     export_summary_csv json_load json_files output_file
     = match rows with
       | [] => ([Log WARNING "No data to write to summary CSV"], Ok tt)
       | _ :: _ =>
           ([WriteFile output_file (table_text rows);
             Log INFO ("Wrote " ++ str_nat (List.length rows)
                       ++ " summary rows to " ++ output_file)%string], Ok tt)
       end /\
     forall first rest, rows = first :: rest ->
       PyDict.keys first = summary_columns /\
       (exists lines,
          table_text rows = (header_line (PyDict.keys first) ++ lines)%string) /\
       CsvReader.reader (table_text rows)
       = Ok (PyDict.keys first :: map cells rows)) /\
  (forall rows output_file,
     deployments_rows json_load json_files = Ok rows ->
     export_deployments_csv json_load json_files output_file
     = match rows with
       | [] => ([Log WARNING "No data to write to deployments CSV"], Ok tt)
       | _ :: _ =>
           ([WriteFile output_file (table_text rows);
             Log INFO ("Wrote " ++ str_nat (List.length rows)
                       ++ " deployment rows to " ++ output_file)%string], Ok tt)
       end /\
     forall first rest, rows = first :: rest ->
       PyDict.keys first = deployment_columns /\
       (exists lines,
          table_text rows = (header_line (PyDict.keys first) ++ lines)%string) /\
       CsvReader.reader (table_text rows)
       = Ok (PyDict.keys first :: map cells rows)) /\
  (forall rows summary_file deployments_file,
     json_files <> [] ->
     summary_rows json_load json_files = Ok rows ->
     deployments_rows json_load json_files = Ok [] ->
     main_exports json_load false false json_files summary_file deployments_file
     = ([WriteFile summary_file (table_text rows);
         Log INFO ("Wrote " ++ str_nat (List.length rows)
                   ++ " summary rows to " ++ summary_file)%string;
         Log WARNING "No data to write to deployments CSV";
         Log INFO "Export complete!"], Ok 0%Z) /\
     rows <> []).
Proof.
  assert (Hs : forall rows output_file,
             summary_rows json_load json_files = Ok rows ->
             export_summary_csv json_load json_files output_file
             = write_table "summary" "summary" rows output_file).
  { intros rows output_file H. unfold export_summary_csv. rewrite H.
    unfold lift, io_bind. destruct (write_table _ _ _ _). reflexivity. }
  assert (Hd : forall rows output_file,
             deployments_rows json_load json_files = Ok rows ->
             export_deployments_csv json_load json_files output_file
             = write_table "deployment" "deployments" rows output_file).
  { intros rows output_file H. unfold export_deployments_csv. rewrite H.
    unfold lift, io_bind. destruct (write_table _ _ _ _). reflexivity. }
  assert (Htext : forall cols first rest,
             PyDict.keys first = cols ->
             Csv.writerow cols = header_line cols ->
             PyDict.keys first = cols /\
             (exists lines,
                table_text (first :: rest)
                = (header_line (PyDict.keys first) ++ lines)%string) /\
             CsvReader.reader (table_text (first :: rest))
             = Ok (PyDict.keys first :: map cells (first :: rest))).
  { intros cols first rest Hk Hw. split; [exact Hk|]. split.
    - exists (csv_text (map cells (first :: rest))).
      unfold table_text. rewrite Hk. cbn [csv_text fold_right].
      rewrite Hw. reflexivity.
    - unfold table_text. apply reader_csv_text. }
  split; [|split].
  - intros rows output_file H. rewrite (Hs _ _ H).
    destruct (summary_rows_keys _ _ _ H) as [Hk _].
    rewrite (write_table_same_keys "summary" "summary" summary_columns rows
               output_file eq_refl Hk).
    split; [destruct rows; reflexivity|].
    intros first rest ->. inversion Hk as [|? ? [Hf _] _].
    apply Htext; [exact Hf | vm_compute; reflexivity].
  - intros rows output_file H. rewrite (Hd _ _ H).
    pose proof (deployments_rows_keys _ _ _ H) as Hk.
    rewrite (write_table_same_keys "deployment" "deployments" deployment_columns
               rows output_file eq_refl Hk).
    split; [destruct rows; reflexivity|].
    intros first rest ->. inversion Hk as [|? ? [Hf _] _].
    apply Htext; [exact Hf | vm_compute; reflexivity].
  - intros rows summary_file deployments_file Hne Hrows Hnone.
    destruct (summary_rows_keys _ _ _ Hrows) as [Hk Hlen].
    destruct json_files as [|f fs]; [congruence|].
    destruct rows as [|first rest]; [discriminate Hlen|].
    split; [|discriminate].
    unfold main_exports. cbn [negb andb orb].
    rewrite (Hs _ _ Hrows), (Hd _ _ Hnone).
    rewrite (write_table_same_keys "summary" "summary" summary_columns _ _ eq_refl Hk).
    reflexivity.
Qed.

Lemma empty_table_not_written_witness :
  let text :=
    ("region,cluster,timestamp,scenario,action,namespaces,elapsed_time,"
     ++ "scale_direction,scale_amount,scale_percentage,"
     ++ "jain_fairness_index_mean,jain_fairness_index_median,"
     ++ "coefficient_of_variation_mean,coefficient_of_variation_median,"
     ++ "gini_coefficient_mean,gini_coefficient_median,"
     ++ "node_skew_mean,node_skew_median,node_skew_max,"
     ++ "node_skew_percentage_mean,node_skew_percentage_median,"
     ++ "node_skew_percentage_max,"
     ++ "nodes_used_avg,nodes_used_median,nodes_used_max,nodes_used_min,"
     ++ "node_count,eligible_node_count,deployment_count"
     ++ Csv.lineterminator
     ++ ",c3,,,,,,,,,,,,,,,,,,,,,,,,,8,," ++ Csv.lineterminator)%string in
  exists row,
    summary_rows Samples.one_file ["out/c.json"] = Ok [row] /\
    deployments_rows Samples.one_file ["out/c.json"] = Ok [] /\
    main_exports Samples.one_file false false ["out/c.json"]
      "out/c-summary.csv" "out/c-deployments.csv"
    = ([WriteFile "out/c-summary.csv" text;
        Log INFO "Wrote 1 summary rows to out/c-summary.csv";
        Log WARNING "No data to write to deployments CSV";
        Log INFO "Export complete!"], Ok 0%Z) /\
    CsvReader.reader text = Ok [summary_columns; cells row] /\
    export_deployments_csv Samples.one_file ["out/c.json"] "out/c-deployments.csv"
    = ([Log WARNING "No data to write to deployments CSV"], Ok tt).
Proof.
  cbv zeta. eexists.
  destruct (empty_table_not_written Samples.one_file ["out/c.json"])
    as [Hsum [Hdep Hmain]].
  split; [vm_compute; reflexivity|]. split; [vm_compute; reflexivity|].
  destruct (Hmain _ "out/c-summary.csv" "out/c-deployments.csv"
              ltac:(discriminate) eq_refl eq_refl) as [Hrun _].
  destruct (Hsum _ "out/c-summary.csv" eq_refl) as [_ Hread].
  destruct (Hread _ _ eq_refl) as [Hk [_ Hreader]].
  destruct (Hdep _ "out/c-deployments.csv" eq_refl) as [Hnone _].
  split; [exact Hrun|]. split; [|exact Hnone].
  rewrite <- Hk. exact Hreader.
Defined.

(** * Further properties of the code *)

(** ** parse_cluster_info: what comes out *)

Lemma split_parts_clean (sep c : ascii) (s : string) :
  PyStr.contains c s = false ->
  Forall (fun p => PyStr.contains c p = false) (PyStr.split sep s).
Proof.
  induction s as [|d s IH]; simpl; intros H.
  - constructor; [reflexivity | constructor].
  - apply orb_false_iff in H as [Hd Hs]. specialize (IH Hs).
    destruct (Ascii.eqb d sep).
    + constructor; [reflexivity | exact IH].
    + destruct (PyStr.split sep s) as [|p ps]; [repeat constructor; simpl; rewrite Hd; reflexivity|].
      inversion IH as [|? ? Hp Hps]; subst.
      constructor; [simpl; rewrite Hd, Hp; reflexivity | exact Hps].
Qed.

Lemma split_parts_no_sep (sep : ascii) (s : string) :
  Forall (fun p => PyStr.contains sep p = false) (PyStr.split sep s).
Proof.
  induction s as [|d s IH]; simpl.
  - constructor; [reflexivity | constructor].
  - destruct (Ascii.eqb d sep) eqn:Hd.
    + constructor; [reflexivity | exact IH].
    + destruct (PyStr.split sep s) as [|p ps]; [repeat constructor; simpl; rewrite Hd; reflexivity|].
      inversion IH as [|? ? Hp Hps]; subst.
      constructor; [simpl; rewrite Hd, Hp; reflexivity | exact Hps].
Qed.

Lemma index_In {A : Type} (l : list A) (i : nat) (x : A) :
  PyStr.index l i = Ok x -> In x l.
Proof.
  unfold PyStr.index. destruct (nth_error l i) eqn:E; [|discriminate].
  intros [= <-]. eapply nth_error_In. exact E.
Qed.

Lemma index_last_In {A : Type} (l : list A) (x : A) :
  PyStr.index_last l = Ok x -> In x l.
Proof.
  unfold PyStr.index_last. destruct (rev l) as [|y r] eqn:E; [discriminate|].
  intros [= <-]. apply in_rev. rewrite E. left. reflexivity.
Qed.

Lemma prefix_cons (a : ascii) (p s : string) :
  String.prefix (String a p) s = true ->
  exists s', s = String a s' /\ String.prefix p s' = true.
Proof.
  destruct s as [|c s]; simpl; [discriminate|].
  destruct (ascii_dec a c) as [->|]; [|discriminate]. eauto.
Qed.

Lemma arn_prefix_has_colon (s : string) :
  PyStr.startswith "arn:aws:eks:" s = true -> PyStr.contains ":" s = true.
Proof.
  unfold PyStr.startswith. intros H.
  apply prefix_cons in H as [s1 [-> H]]. apply prefix_cons in H as [s2 [-> H]].
  apply prefix_cons in H as [s3 [-> H]]. apply prefix_cons in H as [s4 [-> H]].
  reflexivity.
Qed.

(** Where the two results of an ARN come from. *)
Lemma parsed_arn_segments (cluster_context region name : string) :
  PyStr.startswith "arn:aws:eks:" cluster_context = true ->
  parse_cluster_info cluster_context = Ok (region, name) ->
  (region = "" \/ In region (PyStr.split ":" cluster_context)) /\
  (name = "" \/ exists segment, In segment (PyStr.split ":" cluster_context) /\
                               In name (PyStr.split "/" segment)).
Proof.
  intros Hp H. unfold parse_cluster_info in H. rewrite Hp in H.
  apply bind_Ok in H as [r [Hr H]]. apply bind_Ok in H as [n [Hn H]].
  injection H as <- <-. split.
  - destruct (3 <? _)%nat.
    + right. eapply index_In. exact Hr.
    + injection Hr as <-. left. reflexivity.
  - destruct (5 <? _)%nat.
    + apply bind_Ok in Hn as [p5 [Hp5 Hn]]. right. exists p5.
      split; [eapply index_In; exact Hp5 | apply index_last_In; exact Hn].
    + injection Hn as <-. left. reflexivity.
Qed.

Lemma parsed_arn_name_no_colon (cluster_context region name : string) :
  PyStr.startswith "arn:aws:eks:" cluster_context = true ->
  parse_cluster_info cluster_context = Ok (region, name) ->
  PyStr.contains ":" name = false.
Proof.
  intros Hp H. destruct (parsed_arn_segments _ _ _ Hp H) as [_ [->|[seg [Hs Hn]]]];
    [reflexivity|].
  pose proof (split_parts_no_sep ":" cluster_context) as Hparts.
  rewrite Forall_forall in Hparts. apply Hparts in Hs.
  pose proof (split_parts_clean "/" ":" seg Hs) as Hc.
  rewrite Forall_forall in Hc. apply Hc. exact Hn.
Qed.

(** X1: on a string with the ARN prefix, the region that comes out holds no
    colon and the cluster name neither a colon nor a slash. *)
Theorem parse_cluster_info_clean (cluster_context region name : string) :
  PyStr.startswith "arn:aws:eks:" cluster_context = true ->
  parse_cluster_info cluster_context = Ok (region, name) ->
  PyStr.contains ":" region = false /\
  PyStr.contains ":" name = false /\
  PyStr.contains "/" name = false.
Proof.
  intros Hp H.
  pose proof (split_parts_no_sep ":" cluster_context) as Hparts.
  rewrite Forall_forall in Hparts.
  destruct (parsed_arn_segments _ _ _ Hp H) as [Hr Hn].
  split; [|split].
  - destruct Hr as [->|Hr]; [reflexivity | apply Hparts; exact Hr].
  - apply (parsed_arn_name_no_colon _ _ _ Hp H).
  - destruct Hn as [->|[seg [_ Hn]]]; [reflexivity|].
    pose proof (split_parts_no_sep "/" seg) as Hc.
    rewrite Forall_forall in Hc. apply Hc. exact Hn.
Qed.

Lemma parse_cluster_info_clean_witness :
  PyStr.startswith "arn:aws:eks:" "arn:aws:eks:eu-west-1:7:cluster/team/blue:x" = true /\
  parse_cluster_info "arn:aws:eks:eu-west-1:7:cluster/team/blue:x"
  = Ok ("eu-west-1", "blue") /\
  PyStr.contains "/" "blue" = false.
Proof.
  split; [reflexivity|]. split; [reflexivity|].
  apply (parse_cluster_info_clean
           "arn:aws:eks:eu-west-1:7:cluster/team/blue:x" "eu-west-1" "blue");
    reflexivity.
Defined.

(** X2: the cluster name that comes out is a fixed point: parsed again, it
    comes back whole, with an empty region. *)
Theorem parse_cluster_info_name_stable (cluster_context region name : string) :
  parse_cluster_info cluster_context = Ok (region, name) ->
  parse_cluster_info name = Ok ("", name).
Proof.
  intros H.
  destruct (PyStr.startswith "arn:aws:eks:" cluster_context) eqn:Hp.
  - pose proof (parsed_arn_name_no_colon _ _ _ Hp H) as Hc.
    unfold parse_cluster_info.
    destruct (PyStr.startswith "arn:aws:eks:" name) eqn:Hn; [|reflexivity].
    apply arn_prefix_has_colon in Hn. congruence.
  - unfold parse_cluster_info in H. rewrite Hp in H. injection H as <- <-.
    unfold parse_cluster_info. rewrite Hp. reflexivity.
Qed.

Lemma parse_cluster_info_name_stable_witness :
  parse_cluster_info "arn:aws:eks:us-east-1:906324658258:cluster/prod-live-main"
  = Ok ("us-east-1", "prod-live-main") /\
  parse_cluster_info "prod-live-main" = Ok ("", "prod-live-main").
Proof.
  split; [reflexivity|].
  apply (parse_cluster_info_name_stable
           "arn:aws:eks:us-east-1:906324658258:cluster/prod-live-main" "us-east-1").
  reflexivity.
Defined.

(** X3: colon-segments after the sixth are ignored. *)
Theorem parse_cluster_info_trailing (region acct name extra : string) :
  PyStr.contains ":" region = false ->
  PyStr.contains ":" acct = false ->
  PyStr.contains ":" name = false ->
  PyStr.contains "/" name = false ->
  parse_cluster_info (arn region acct name ++ ":" ++ extra) = Ok (region, name).
Proof.
  intros Hr Ha Hn Hs.
  assert (Hsplit : exists more,
             PyStr.split ":" (arn region acct name ++ ":" ++ extra)
             = ["arn"; "aws"; "eks"; region; acct; ("cluster/" ++ name)%string]
               ++ more).
  { exists (PyStr.split ":" extra). unfold arn.
    replace ((("arn:aws:eks:" ++ region ++ ":" ++ acct ++ ":cluster/" ++ name)
              ++ ":" ++ extra)%string)
      with ("arn" ++ String ":" ("aws" ++ String ":" ("eks" ++ String ":"
              (region ++ String ":" (acct ++ String ":"
                 (("cluster/" ++ name) ++ String ":" extra))))))%string.
    - rewrite !split_app; try assumption; reflexivity.
    - rewrite !RoundTrip.append_assoc. reflexivity. }
  destruct Hsplit as [more Hsplit].
  unfold parse_cluster_info. rewrite Hsplit.
  replace (PyStr.startswith "arn:aws:eks:" (arn region acct name ++ ":" ++ extra))
    with true.
  2:{ symmetry. unfold arn. rewrite RoundTrip.append_assoc.
      apply startswith_app. }
  cbn [app List.length Nat.ltb Nat.leb PyStr.index nth_error bind].
  change ("cluster/" ++ name)%string with ("cluster" ++ String "/" name)%string.
  rewrite split_app by reflexivity. rewrite split_no_sep by assumption.
  reflexivity.
Qed.

Lemma parse_cluster_info_trailing_witness :
  parse_cluster_info (arn "us-east-1" "1" "c2" ++ ":" ++ "x:y/z") = Ok ("us-east-1", "c2").
Proof.
  apply (parse_cluster_info_trailing "us-east-1" "1" "c2" "x:y/z"); reflexivity.
Defined.

(** ** The summary export: rows and columns *)

(** X4: the summary table has one row per input file, in the order of the
    files, and every row has the 29 summary columns in their fixed order,
    whatever the document holds. *)
Theorem summary_one_row_per_file (json_load : string -> result value)
    (json_files : list string) (rows : list (dict value)) :
  summary_rows json_load json_files = Ok rows ->
  List.length rows = List.length json_files /\
  Forall2 (fun json_file row =>
             exists data, json_load json_file = Ok data /\
                          summary_row data = Ok row /\
                          PyDict.keys row = summary_columns)
          json_files rows.
Proof.
  intros H. split; [apply (mapM_length _ _ _ H)|].
  unfold summary_rows in H. apply mapM_Forall2 in H.
  eapply Forall2_impl; [|exact H].
  intros f row Hrow. cbv beta in Hrow. inv_bind Hrow.
  exists x. split; [assumption|]. split; [assumption|].
  apply summary_row_keys with (data := x). assumption.
Qed.

Lemma summary_one_row_per_file_witness :
  exists r1 r2,
    summary_rows Samples.two_files ["out/a.json"; "out/b.json"] = Ok [r1; r2] /\
    PyDict.lookup "cluster" r1 = Some (VStr "c1") /\
    PyDict.lookup "cluster" r2 = Some (VStr "c2") /\
    PyDict.keys r2 = summary_columns.
Proof.
  eexists. eexists. split; [reflexivity|].
  destruct (summary_one_row_per_file Samples.two_files
              ["out/a.json"; "out/b.json"] _ eq_refl) as [_ H].
  split; [reflexivity|]. split; [reflexivity|].
  inversion H as [|? ? ? ? _ H2]; subst. inversion H2 as [|? ? ? ? Hb _]; subst.
  destruct Hb as [data [_ [_ Hk]]]. exact Hk.
Defined.

Lemma lookup_set_same {V : Type} (k : string) (v : V) (d : dict V) :
  PyDict.lookup k (PyDict.set k v d) = Some v.
Proof.
  induction d as [|[k0 v0] d IH]; simpl.
  - rewrite String.eqb_refl. reflexivity.
  - destruct (String.eqb k0 k) eqn:E; simpl; rewrite E; [reflexivity | exact IH].
Qed.

(** X5: with a non-empty [measurements] list the summary row looks at its
    first element only: [node_count] and [eligible_node_count] come from the
    cluster block of that element, the deployment count is the size of its
    deployments mapping (nothing when zero), and the measurements after it
    can be replaced by any others without changing the row. *)
Theorem summary_first_measurement
    (d : dict value) (m : value) (ms : list value) (row : dict value) :
  PyDict.lookup "measurements" d = Some (VList (m :: ms)) ->
  summary_row (VDict d) = Ok row ->
  PyDict.lookup "node_count" row
    = Some (field "node_count" (VStr "") (field "cluster" (VDict []) m)) /\
  PyDict.lookup "eligible_node_count" row
    = Some (field "eligible_node_count" (VStr "") (field "cluster" (VDict []) m)) /\
  (exists count,
     py_len (field "deployments" (VDict []) m) = Ok count /\
     PyDict.lookup "deployment_count" row
     = Some (match count with O => VStr "" | _ => VInt (Z.of_nat count) end)) /\
  (forall others,
     summary_row (VDict (PyDict.set "measurements" (VList (m :: others)) d)) = Ok row).
Proof.
  intros Hm H.
  destruct (summary_row_counts _ _ H) as [cluster_data [count [Hcc [Hn [He Hd]]]]].
  assert (Hfirst : cluster_data = field "cluster" (VDict []) m /\
                   py_len (field "deployments" (VDict []) m) = Ok count).
  { unfold cluster_and_count, measurements_of, py_or, py_get in Hcc.
    rewrite Hm in Hcc. cbn in Hcc.
    destruct m; try discriminate. cbn [bind] in Hcc.
    apply bind_Ok in Hcc as [n [Hlen Hcc]]. injection Hcc as <- <-.
    split; [reflexivity | exact Hlen]. }
  destruct Hfirst as [-> Hlen].
  split; [exact Hn|]. split; [exact He|]. split.
  - exists count. split; [exact Hlen|]. rewrite Hd.
    destruct count; [reflexivity|]. cbn [truthy].
    destruct (Z.eqb_spec (Z.of_nat (S count)) 0); [lia | reflexivity].
  - intros others. rewrite <- H.
    unfold summary_row, cluster_identity, run_timestamp, postprocessed_of,
      cluster_and_count, measurements_of, py_or, py_get.
    rewrite !lookup_set_other by discriminate.
    rewrite lookup_set_same, Hm. reflexivity.
Qed.

Lemma summary_first_measurement_witness :
  exists row,
    summary_row (VDict Samples.both_collections) = Ok row /\
    PyDict.lookup "deployment_count" row = Some (VInt 2) /\
    summary_row (VDict (PyDict.set "measurements"
                          (VList [hd VNone Samples.two_measurements])
                          Samples.both_collections)) = Ok row.
Proof.
  eexists. split; [reflexivity|].
  destruct (summary_first_measurement Samples.both_collections _ _ _
              eq_refl eq_refl) as [_ [_ [_ Hrest]]].
  split; [reflexivity | exact (Hrest [])].
Defined.

(** ** All or nothing *)

Lemma mapM_raises {A B : Type} (f : A -> result B) (l : list A) (a : A) (e0 : exn) :
  In a l -> f a = Raise e0 -> exists e, mapM f l = Raise e.
Proof.
  induction l as [|b l IH]; simpl; [tauto|].
  intros [->|Hin] Hf.
  - rewrite Hf. eexists. reflexivity.
  - destruct (f b); [|eexists; reflexivity].
    destruct (IH Hin Hf) as [e He]. rewrite He. eexists. reflexivity.
Qed.

(** X6: one input file that cannot be loaded, or whose document gives no
    summary row, stops the summary export before anything is written or
    logged, whatever the other files hold. *)
Theorem summary_export_all_or_nothing (json_load : string -> result value)
    (json_files : list string) (output_file json_file : string) (e0 : exn) :
  In json_file json_files ->
  (data <- json_load json_file ;; summary_row data) = Raise e0 ->
  exists e, export_summary_csv json_load json_files output_file = ([], Raise e).
Proof.
  intros Hin Hf.
  destruct (mapM_raises (fun f => data <- json_load f ;; summary_row data)
              json_files json_file e0 Hin Hf) as [e He].
  exists e. unfold export_summary_csv, summary_rows. rewrite He. reflexivity.
Qed.

Lemma summary_export_all_or_nothing_witness :
  In "out/missing.json" ["out/a.json"; "out/missing.json"] /\
  export_summary_csv Samples.two_files ["out/a.json"; "out/missing.json"]
    "out/m-summary.csv" = ([], Raise LoadError).
Proof.
  split; [right; left; reflexivity|].
  destruct (summary_export_all_or_nothing Samples.two_files
              ["out/a.json"; "out/missing.json"] "out/m-summary.csv"
              "out/missing.json" LoadError) as [e He].
  - right. left. reflexivity.
  - reflexivity.
  - rewrite He. vm_compute in He. injection He as <-. reflexivity.
Defined.

(** X7: the same for the deployments export: a file that cannot be loaded,
    or a document whose deployment rows cannot be built, leaves no file and
    no log record. *)
Theorem deployments_export_all_or_nothing (json_load : string -> result value)
    (json_files : list string) (output_file json_file : string) (e0 : exn) :
  In json_file json_files ->
  (data <- json_load json_file ;; deployment_rows data) = Raise e0 ->
  exists e, export_deployments_csv json_load json_files output_file = ([], Raise e).
Proof.
  intros Hin Hf.
  destruct (mapM_raises (fun f => data <- json_load f ;; deployment_rows data)
              json_files json_file e0 Hin Hf) as [e He].
  exists e. unfold export_deployments_csv, deployments_rows. rewrite He. reflexivity.
Qed.

Lemma deployments_export_all_or_nothing_witness :
  In "out/d.json" ["out/a.json"; "out/d.json"] /\
  (exists rows, summary_rows MoreSamples.files_with_null ["out/a.json"; "out/d.json"]
                = Ok rows) /\
  export_deployments_csv MoreSamples.files_with_null ["out/a.json"; "out/d.json"]
    "out/m-deployments.csv" = ([], Raise TypeError).
Proof.
  split; [right; left; reflexivity|]. split; [eexists; reflexivity|].
  destruct (deployments_export_all_or_nothing MoreSamples.files_with_null
              ["out/a.json"; "out/d.json"] "out/m-deployments.csv"
              "out/d.json" TypeError) as [e He].
  - right. left. reflexivity.
  - reflexivity.
  - rewrite He. vm_compute in He. injection He as <-. reflexivity.
Defined.

(** ** The summary table read back *)

(** X8: the summary table the export writes reads back, with [csv.reader],
    as the 29 column names followed by the cells of every row, in order. *)
Theorem summary_csv_round_trip (json_load : string -> result value)
    (json_files : list string) (output_file : string) (rows : list (dict value)) :
  summary_rows json_load json_files = Ok rows ->
  rows <> [] ->
  exists text,
    export_summary_csv json_load json_files output_file
    = ([WriteFile output_file text;
        Log INFO ("Wrote " ++ str_nat (List.length rows)
                  ++ " summary rows to " ++ output_file)%string], Ok tt) /\
    CsvReader.reader text = Ok (summary_columns :: map cells rows) /\
    Forall (fun row => List.length (cells row) = 29) rows.
Proof.
  intros H Hne.
  destruct (summary_rows_keys _ _ _ H) as [Hk _].
  exists (table_text rows). split; [|split].
  - unfold export_summary_csv. rewrite H. unfold lift, io_bind.
    rewrite (write_table_same_keys "summary" "summary" summary_columns
               rows output_file eq_refl Hk).
    destruct rows; [congruence | reflexivity].
  - destruct rows as [|first rest]; [congruence|].
    unfold table_text. rewrite reader_csv_text. do 2 f_equal.
    inversion Hk as [|? ? [Hf _] _]. exact Hf.
  - eapply Forall_impl; [|exact Hk]. intros row [Hkeys _].
    unfold cells. rewrite length_map.
    rewrite <- (length_map fst row). fold (PyDict.keys row). rewrite Hkeys. reflexivity.
Qed.

Lemma summary_csv_round_trip_witness :
  exists rows text,
    summary_rows Samples.two_files ["out/a.json"; "out/b.json"] = Ok rows /\
    export_summary_csv Samples.two_files ["out/a.json"; "out/b.json"]
      "out/m-summary.csv"
    = ([WriteFile "out/m-summary.csv" text;
        Log INFO "Wrote 2 summary rows to out/m-summary.csv"], Ok tt) /\
    CsvReader.reader text = Ok (summary_columns :: map cells rows).
Proof.
  eexists.
  destruct (summary_csv_round_trip Samples.two_files
              ["out/a.json"; "out/b.json"] "out/m-summary.csv" _ eq_refl)
    as [text [Hw [Hr _]]]; [discriminate|].
  exists text. split; [reflexivity|]. split; [exact Hw | exact Hr].
Defined.

(** ** Cluster identity *)

(** X9: when [args.cluster_context] is a non-empty string the top-level
    [cluster] field plays no part in the summary row; a context without the
    ARN prefix is the cluster name as a whole, with an empty region.  When
    the context is absent or empty the cluster name is the top-level
    [cluster] field and the region is empty. *)
Theorem summary_cluster_precedence (d : dict value) (row : dict value) :
  summary_row (VDict d) = Ok row ->
  let context := field "cluster_context" (VStr "") (field "args" (VDict []) (VDict d)) in
  (truthy context = false ->
     PyDict.lookup "region" row = Some (VStr "") /\
     PyDict.lookup "cluster" row = Some (field "cluster" (VStr "") (VDict d))) /\
  (truthy context = true ->
     (exists s, context = VStr s /\ s <> "" /\
        (PyStr.startswith "arn:aws:eks:" s = false ->
           PyDict.lookup "region" row = Some (VStr "") /\
           PyDict.lookup "cluster" row = Some (VStr s))) /\
     forall other,
       summary_row (VDict (PyDict.set "cluster" other d)) = Ok row).
Proof.
  intros H. cbv zeta.
  assert (Hid : exists region cluster_name,
             cluster_identity (VDict d) = Ok (region, cluster_name) /\
             PyDict.lookup "region" row = Some region /\
             PyDict.lookup "cluster" row = Some cluster_name).
  { unfold summary_row in H. inv_binds H. injection H as <-.
    eexists. eexists. split; [eassumption|]. split; reflexivity. }
  destruct Hid as [region [cluster_name [Hid [Hr Hc]]]].
  unfold cluster_identity in Hid.
  apply bind_Ok in Hid as [args [Ea Hid]]. apply bind_Ok in Hid as [ctx [Ec Hid]].
  apply py_get_field in Ea. subst args. apply py_get_field in Ec. subst ctx.
  split.
  - intros Hf. rewrite Hf in Hid. apply bind_Ok in Hid as [c [Ecl Hid]].
    apply py_get_field in Ecl. subst c. injection Hid as <- <-. split; assumption.
  - intros Ht. rewrite Ht in Hid. split.
    + destruct (field "cluster_context" _ _) as [| | | |s| |] eqn:Ectx;
        try discriminate.
      exists s. split; [reflexivity|]. split.
      * intros ->. discriminate.
      * intros Hp. unfold call_parse_cluster_info, parse_cluster_info in Hid.
        rewrite Hp in Hid. cbn in Hid. injection Hid as <- <-. split; assumption.
    + intros other. rewrite <- H.
      assert (Hid' : cluster_identity (VDict (PyDict.set "cluster" other d))
                     = cluster_identity (VDict d)).
      { unfold cluster_identity, py_get.
        rewrite lookup_set_other by discriminate.
        unfold field in Ht.
        destruct (match PyDict.lookup "args" d with Some x => x | None => VDict [] end)
          as [| | | | | |argd]; try reflexivity.
        cbn [bind]. rewrite Ht. reflexivity. }
      unfold summary_row. rewrite Hid'.
      unfold run_timestamp, postprocessed_of, cluster_and_count, measurements_of,
        py_or, py_get.
      rewrite !lookup_set_other by discriminate. reflexivity.
Qed.

Lemma summary_cluster_precedence_witness :
  exists row,
    summary_row (VDict MoreSamples.named_run) = Ok row /\
    PyDict.lookup "cluster" row = Some (VStr "kind-local") /\
    PyDict.lookup "region" row = Some (VStr "") /\
    summary_row (VDict (PyDict.set "cluster" VNone MoreSamples.named_run)) = Ok row.
Proof.
  eexists. split; [reflexivity|].
  destruct (summary_cluster_precedence MoreSamples.named_run _ eq_refl)
    as [_ Hctx].
  destruct (Hctx eq_refl) as [_ Hother].
  split; [reflexivity|]. split; [reflexivity | exact (Hother VNone)].
Defined.

(** ** The two tables agree on the run *)

Lemma Forall2_in_l {A B : Type} (R : A -> B -> Prop) (l : list A) (r : list B) (a : A) :
  Forall2 R l r -> In a l -> exists b, R a b.
Proof.
  induction 1 as [|x y l r Hxy _ IH]; simpl; [tauto|].
  intros [<-|Hin]; [eauto | apply IH; exact Hin].
Qed.

Lemma Forall2_in_r {A B : Type} (R : A -> B -> Prop) (l : list A) (r : list B) (b : B) :
  Forall2 R l r -> In b r -> exists a, R a b.
Proof.
  induction 1 as [|x y l r Hxy _ IH]; simpl; [tauto|].
  intros [<-|Hin]; [eauto | apply IH; exact Hin].
Qed.

Lemma triple_row_run_columns (data : value) (t : value * (string * value))
    (row : dict value) :
  triple_row data t = Ok row ->
  exists region cluster_name timestamp args scenario action namespaces namespace_str,
    run_timestamp data = Ok timestamp /\
    cluster_identity data = Ok (region, cluster_name) /\
    py_get data "args" (VDict []) = Ok args /\
    py_get args "scenario" (VStr "") = Ok scenario /\
    py_get args "action" (VStr "") = Ok action /\
    run_namespaces args = Ok namespaces /\
    join_namespaces namespaces = Ok namespace_str /\
    PyDict.lookup "region" row = Some region /\
    PyDict.lookup "cluster" row = Some cluster_name /\
    PyDict.lookup "namespace" row = Some namespace_str /\
    PyDict.lookup "timestamp" row = Some timestamp /\
    PyDict.lookup "scenario" row = Some scenario /\
    PyDict.lookup "action" row = Some action.
Proof.
  destruct t as [m [key observation]]. unfold triple_row. intros H.
  do 8 inv_bind H.
  exists v, v0, x, x0, x1, x2, x3, x4.
  repeat (split; [assumption|]).
  unfold deployment_row in H. inv_binds H. injection H as <-.
  repeat split; reflexivity.
Qed.

(** X10: the columns that identify the run are the same in both tables:
    every deployment row of a document has the region, cluster, timestamp,
    scenario and action of the summary row of that document, and its
    [namespace] is the [namespaces] of the summary row. *)
Theorem tables_agree_on_run (data : value) (summary : dict value)
    (rows : list (dict value)) :
  summary_row data = Ok summary ->
  deployment_rows data = Ok rows ->
  Forall (fun row =>
            PyDict.lookup "region" row = PyDict.lookup "region" summary /\
            PyDict.lookup "cluster" row = PyDict.lookup "cluster" summary /\
            PyDict.lookup "timestamp" row = PyDict.lookup "timestamp" summary /\
            PyDict.lookup "scenario" row = PyDict.lookup "scenario" summary /\
            PyDict.lookup "action" row = PyDict.lookup "action" summary /\
            PyDict.lookup "namespace" row = PyDict.lookup "namespaces" summary)
         rows.
Proof.
  intros Hs Hd.
  assert (Hsum : exists region cluster_name timestamp args scenario action
                        namespaces namespace_str,
             run_timestamp data = Ok timestamp /\
             cluster_identity data = Ok (region, cluster_name) /\
             py_get data "args" (VDict []) = Ok args /\
             py_get args "scenario" (VStr "") = Ok scenario /\
             py_get args "action" (VStr "") = Ok action /\
             run_namespaces args = Ok namespaces /\
             join_namespaces namespaces = Ok namespace_str /\
             PyDict.lookup "region" summary = Some region /\
             PyDict.lookup "cluster" summary = Some cluster_name /\
             PyDict.lookup "namespaces" summary = Some namespace_str /\
             PyDict.lookup "timestamp" summary = Some timestamp /\
             PyDict.lookup "scenario" summary = Some scenario /\
             PyDict.lookup "action" summary = Some action).
  { unfold summary_row in Hs. inv_binds Hs. injection Hs as <-.
    exists v, v0, x, x1, x2, x3, x4, x5.
    repeat (split; [assumption|]). repeat split; reflexivity. }
  destruct Hsum as [r [c [ts [args [sc [ac [nss [ns
    [Hts [Hid [Hargs [Hsc [Hac [Hnss [Hns [Sr [Sc [Sn [St [Ss Sa]]]]]]]]]]]]]]]]]]]].
  apply deployment_rows_by_triple in Hd. apply mapM_Forall2 in Hd.
  rewrite Forall_forall. intros row Hin.
  destruct (Forall2_in_r _ _ _ _ Hd Hin) as [t Hrow].
  apply triple_row_run_columns in Hrow.
  destruct Hrow as [r' [c' [t' [args' [sc' [ac' [nss' [ns'
    [Hts' [Hid' [Hargs' [Hsc' [Hac' [Hnss' [Hns' [Rr [Rc [Rn [Rt [Rs Ra]]]]]]]]]]]]]]]]]]]].
  rewrite Hts in Hts'. injection Hts' as <-.
  rewrite Hid in Hid'. injection Hid' as <- <-.
  rewrite Hargs in Hargs'. injection Hargs' as <-.
  rewrite Hsc in Hsc'. injection Hsc' as <-.
  rewrite Hac in Hac'. injection Hac' as <-.
  rewrite Hnss in Hnss'. injection Hnss' as <-.
  rewrite Hns in Hns'. injection Hns' as <-.
  rewrite Sr, Sc, Sn, St, Ss, Sa, Rr, Rc, Rn, Rt, Rs, Ra. repeat split.
Qed.

Lemma tables_agree_on_run_witness :
  exists summary rows,
    summary_row (VDict MoreSamples.named_run) = Ok summary /\
    deployment_rows (VDict MoreSamples.named_run) = Ok rows /\
    List.length rows = 2 /\
    PyDict.lookup "namespaces" summary = Some (VStr "ns1,ns2") /\
    Forall (fun row => PyDict.lookup "namespace" row = Some (VStr "ns1,ns2")) rows.
Proof.
  eexists. eexists. split; [reflexivity|]. split; [reflexivity|].
  split; [reflexivity|]. split; [reflexivity|].
  pose proof (tables_agree_on_run (VDict MoreSamples.named_run) _ _
                eq_refl eq_refl) as H.
  eapply Forall_impl; [|exact H].
  intros row [_ [_ [_ [_ [_ Hn]]]]]. rewrite Hn. reflexivity.
Defined.

(** ** Nothing is skipped *)

(** X11: the deployments export skips nothing: when it gets through a
    document with a non-empty [measurements] list, every element of the
    list is an object, its [deployments], when present, is an object, and
    every deployment in it is an object. *)
Theorem nothing_is_skipped (d : dict value) (m : value) (ms : list value)
    (rows : list (dict value)) :
  PyDict.lookup "measurements" d = Some (VList (m :: ms)) ->
  deployment_rows (VDict d) = Ok rows ->
  Forall (fun measurement =>
            exists fields entries,
              measurement = VDict fields /\
              field "deployments" (VDict []) measurement = VDict entries /\
              Forall (fun entry => exists observation, snd entry = VDict observation)
                     entries)
         (m :: ms).
Proof.
  intros Hm H. unfold deployment_rows in H. inv_binds H.
  unfold measurements_for_rows, measurements_of, py_or, py_get in E6.
  rewrite Hm in E6. cbn in E6. injection E6 as <-.
  cbn in E7. injection E7 as <-.
  apply mapM_Forall2 in E8.
  rewrite Forall_forall. intros measurement Hin.
  destruct (Forall2_in_l _ _ _ _ E8 Hin) as [rs Hrow].
  unfold measurement_rows in Hrow.
  apply bind_Ok in Hrow as [deployments [Hdep Hrow]].
  apply bind_Ok in Hrow as [mts [_ Hrow]].
  apply bind_Ok in Hrow as [items [Hitems Hrow]].
  apply py_get_Ok in Hdep as [fields [-> Hdep]].
  destruct deployments as [| | | | | |entries]; try discriminate.
  cbn in Hitems. injection Hitems as <-.
  exists fields, entries. split; [reflexivity|]. split.
  - cbn. rewrite <- Hdep. reflexivity.
  - apply mapM_Forall2 in Hrow.
    rewrite Forall_forall. intros [key observation] Hentry.
    destruct (Forall2_in_l _ _ _ _ Hrow Hentry) as [row Hr].
    unfold deployment_row in Hr. apply bind_Ok in Hr as [name [Hname _]].
    apply py_get_Ok in Hname as [o [-> _]]. exists o. reflexivity.
Qed.

Lemma nothing_is_skipped_witness :
  (exists rows, deployment_rows (VDict Samples.both_collections) = Ok rows) /\
  Forall (fun measurement => exists fields, measurement = VDict fields)
         Samples.two_measurements /\
  deployment_rows (VDict MoreSamples.bad_second) = Raise AttributeError.
Proof.
  split; [eexists; reflexivity|]. split; [|reflexivity].
  pose proof (nothing_is_skipped Samples.both_collections _ _ _ eq_refl eq_refl) as H.
  eapply Forall_impl; [|exact H].
  intros measurement [fields [_ [Hf _]]]. exists fields. exact Hf.
Defined.

(** ** The summary export with at least one file *)

Lemma export_summary_written (json_load : string -> result value)
    (json_files : list string) (output_file : string) (rows : list (dict value)) :
  json_files <> [] ->
  summary_rows json_load json_files = Ok rows ->
  export_summary_csv json_load json_files output_file
  = ([WriteFile output_file (table_text rows);
      Log INFO ("Wrote " ++ str_nat (List.length rows)
                ++ " summary rows to " ++ output_file)%string], Ok tt) /\
  rows <> [].
Proof.
  intros Hne H.
  destruct (summary_rows_keys _ _ _ H) as [Hk Hlen].
  assert (Hrows : rows <> []).
  { intros ->. destruct json_files; [congruence | discriminate]. }
  split; [|exact Hrows].
  unfold export_summary_csv. rewrite H. unfold lift, io_bind.
  rewrite (write_table_same_keys "summary" "summary" summary_columns
             rows output_file eq_refl Hk).
  destruct rows; [congruence | reflexivity].
Qed.


(** ** find_json_files *)

Lemma lookup_In {V : Type} (k : string) (v : V) (d : dict V) :
  PyDict.lookup k d = Some v -> In (k, v) d.
Proof.
  induction d as [|[k0 v0] d IH]; simpl; [discriminate|].
  destruct (String.eqb_spec k0 k) as [->|_].
  - intros [= ->]. left. reflexivity.
  - intros H. right. apply IH. exact H.
Qed.

Lemma fs_well_formed_child (entries : list (string * Fs.node)) (name : string)
    (child : Fs.node) :
  Fs.well_formed (Fs.Dir entries) = true ->
  In (name, child) entries ->
  PyDict.lookup name entries = Some child /\ Fs.well_formed child = true.
Proof.
  cbn [Fs.well_formed]. intros H Hin. apply andb_true_iff in H as [Hd Hall].
  split; [apply lookup_distinct; assumption|].
  rewrite forallb_forall in Hall. apply (Hall (name, child) Hin).
Qed.

(** What lies below a node is what a non-empty path from it leads to. *)
Lemma descendants_resolve (rel : Fs.path) :
  forall (n x : Fs.node),
    Fs.well_formed n = true ->
    (In (rel, x) (Fs.descendants n) <-> rel <> [] /\ Fs.resolve n rel = Some x).
Proof.
  induction rel as [|name rest IH]; intros n x Hwf.
  - split; [|intros [H _]; congruence].
    destruct n as [|entries]; cbn [Fs.descendants]; [intros []|].
    intros H. apply in_flat_map in H as [entry [_ [H|H]]]; [discriminate|].
    apply in_map_iff in H as [below [H _]]. discriminate.
  - destruct n as [|entries].
    + cbn. split; [intros [] | intros [_ H]; discriminate].
    + cbn [Fs.descendants Fs.resolve]. split.
      * intros H. split; [discriminate|].
        apply in_flat_map in H as [[name' child] [Hentry H]]. cbn [fst snd] in H.
        destruct (fs_well_formed_child entries name' child Hwf Hentry) as [Hl Hc].
        destruct H as [H|H].
        -- injection H as Hn Hr Hx. subst name' rest child. rewrite Hl. reflexivity.
        -- apply in_map_iff in H as [[rel' x'] [H Hbelow]]. cbn [fst snd] in H.
           injection H as Hn Hr Hx. subst name' rel' x'. rewrite Hl.
           apply (IH child x Hc). exact Hbelow.
      * intros [_ H].
        destruct (PyDict.lookup name entries) as [child|] eqn:Hl; [|discriminate].
        apply lookup_In in Hl.
        destruct (fs_well_formed_child entries name child Hwf Hl) as [_ Hc].
        apply in_flat_map. exists (name, child). split; [exact Hl|]. cbn [fst snd].
        destruct rest as [|name2 rest2].
        -- cbn in H. injection H as ->. left. reflexivity.
        -- right. apply in_map_iff. exists (name2 :: rest2, x). split; [reflexivity|].
           apply (IH child x Hc). split; [discriminate | exact H].
Qed.

Lemma resolve_app (p rel : Fs.path) :
  forall n,
    Fs.resolve n (p ++ rel)
    = match Fs.resolve n p with Some m => Fs.resolve m rel | None => None end.
Proof.
  induction p as [|name p IH]; intros n; [reflexivity|].
  cbn [app Fs.resolve]. destruct n as [|entries]; [reflexivity|].
  destruct (PyDict.lookup name entries); [apply IH | reflexivity].
Qed.

Lemma resolve_well_formed (p : Fs.path) :
  forall n m,
    Fs.well_formed n = true -> Fs.resolve n p = Some m -> Fs.well_formed m = true.
Proof.
  induction p as [|name p IH]; intros n m Hwf H.
  - cbn in H. injection H as <-. exact Hwf.
  - destruct n as [|entries]; [discriminate|]. cbn [Fs.resolve] in H.
    destruct (PyDict.lookup name entries) as [child|] eqn:Hl; [|discriminate].
    apply lookup_In in Hl.
    destruct (fs_well_formed_child entries name child Hwf Hl) as [_ Hc].
    apply (IH child m Hc H).
Qed.


Lemma insert_In (p q : Fs.path) (l : list Fs.path) :
  In q (Fs.insert p l) <-> q = p \/ In q l.
Proof.
  induction l as [|r l IH]; cbn.
  - intuition.
  - destruct (Fs.path_leb p r); cbn; [intuition|].
    rewrite IH. intuition.
Qed.

Lemma sorted_In (q : Fs.path) (l : list Fs.path) :
  In q (Fs.sorted l) <-> In q l.
Proof.
  induction l as [|p l IH]; cbn; [tauto|].
  rewrite insert_In, IH. intuition.
Qed.



Lemma find_in_directory (root : Fs.node) (path : Fs.path)
    (entries : list (string * Fs.node)) :
  Fs.well_formed root = true ->
  Fs.resolve root path = Some (Fs.Dir entries) ->
  forall found,
    In found (snd (find_json_files root path)) <->
    exists below entry,
      found = path ++ below /\ below <> [] /\
      Fs.resolve root found = Some entry /\
      Fs.json_name (Fs.name below) = true.
Proof.
  intros Hwf Hdir. unfold find_json_files. rewrite Hdir. cbn [fst snd].
  pose proof (resolve_well_formed path root _ Hwf Hdir) as Hwfd.
  intros found. rewrite sorted_In, in_map_iff. unfold Fs.rglob_json. split.
  - intros [below [<- Hin]]. apply in_map_iff in Hin as [[rel x] [Hrel Hin]].
    cbn [fst] in Hrel. subst rel. apply filter_In in Hin as [Hin Hname].
    apply (descendants_resolve below _ x Hwfd) in Hin as [Hne Hres].
    exists below, x. split; [reflexivity|]. split; [exact Hne|].
    split; [|exact Hname]. rewrite resolve_app, Hdir. exact Hres.
  - intros [below [x [-> [Hne [Hres Hname]]]]].
    exists below. split; [reflexivity|].
    apply in_map_iff. exists (below, x). split; [reflexivity|].
    apply filter_In. split; [|exact Hname].
    apply (descendants_resolve below _ x Hwfd). split; [exact Hne|].
    rewrite resolve_app, Hdir in Hres. exact Hres.
Qed.



(** X17: every path [find_json_files] returns leads to an entry of the
    file system; a path that leads to a file is returned alone, whatever
    its name; an error is logged exactly when the path leads nowhere, and
    then nothing is returned. *)
Theorem find_json_files_exist (root : Fs.node) (path : Fs.path) :
  Fs.well_formed root = true ->
  (forall found, In found (snd (find_json_files root path)) ->
                 Fs.resolve root found <> None) /\
  (Fs.resolve root path = Some Fs.File -> snd (find_json_files root path) = [path]) /\
  (fst (find_json_files root path) <> [] <-> Fs.resolve root path = None) /\
  (Fs.resolve root path = None -> snd (find_json_files root path) = []).
Proof.
  intros Hwf.
  destruct (Fs.resolve root path) as [[|entries]|] eqn:Hres.
  - unfold find_json_files. rewrite Hres. cbn [fst snd].
    split; [|split; [reflexivity|split; [split; [congruence|discriminate]|discriminate]]].
    intros found [<-|[]]. congruence.
  - pose proof (find_in_directory root path entries Hwf Hres) as Hin.
    split; [|split; [discriminate|split; [|discriminate]]].
    + intros found Hf. apply Hin in Hf as [below [x [_ [_ [Hx _]]]]]. congruence.
    + unfold find_json_files. rewrite Hres. cbn [fst].
      split; [congruence | discriminate].
  - unfold find_json_files. rewrite Hres. cbn [fst snd].
    split; [intros found []|]. split; [discriminate|].
    split; [split; [reflexivity | discriminate] | reflexivity].
Qed.

Lemma find_json_files_exist_witness :
  Fs.well_formed FsSamples.tree = true /\
  find_json_files FsSamples.tree ["output"; "notes.txt"] = ([], [["output"; "notes.txt"]]) /\
  find_json_files FsSamples.tree ["nowhere"]
  = ([Log ERROR "Path not found: nowhere"], []).
Proof.
  split; [reflexivity|].
  destruct (find_json_files_exist FsSamples.tree ["output"; "notes.txt"] eq_refl)
    as [_ [Hfile _]].
  split; [|reflexivity].
  specialize (Hfile eq_refl). unfold find_json_files in *. exact (f_equal (pair []) Hfile).
Defined.

(** ** Namespaces *)

Lemma mapM_strings (items : list value) (strs : list string) :
  mapM (fun x => match x with VStr s => Ok s | _ => Raise TypeError end) items
  = Ok strs ->
  items = map VStr strs.
Proof.
  revert strs. induction items as [|x items IH]; cbn; intros strs H.
  - injection H as <-. reflexivity.
  - destruct x; try discriminate. cbn [bind] in H.
    apply bind_Ok in H as [rest [Hrest H]]. injection H as <-.
    cbn. rewrite (IH rest Hrest). reflexivity.
Qed.

(** X18: the [namespaces] column of a summary row: a non-empty
    [args.namespaces] list holds strings only and is written joined by
    commas; when [args.namespaces] is absent or empty, a string under
    [args.namespace] is written as it is; with neither, the column is
    empty. *)
Theorem summary_namespaces (d row : dict value) :
  summary_row (VDict d) = Ok row ->
  let args := field "args" (VDict []) (VDict d) in
  let listed := field "namespaces" (VList []) args in
  let single := field "namespace" VNone args in
  (forall item items,
     listed = VList (item :: items) ->
     exists strs,
       item :: items = map VStr strs /\
       PyDict.lookup "namespaces" row = Some (VStr (PyStr.join "," strs))) /\
  (truthy listed = false ->
     (forall s, single = VStr s -> PyDict.lookup "namespaces" row = Some (VStr s)) /\
     (truthy single = false -> PyDict.lookup "namespaces" row = Some (VStr ""))).
Proof.
  intros H. cbv zeta.
  assert (Hns : exists args namespaces joined,
             py_get (VDict d) "args" (VDict []) = Ok args /\
             run_namespaces args = Ok namespaces /\
             join_namespaces namespaces = Ok joined /\
             PyDict.lookup "namespaces" row = Some joined).
  { unfold summary_row in H. inv_binds H. injection H as <-.
    exists x1, x4, x5. repeat (split; [assumption|]). reflexivity. }
  destruct Hns as [args [namespaces [joined [Ha [Hn [Hj Hrow]]]]]].
  apply py_get_field in Ha. subst args.
  change (field "args" (VDict []) (VDict d))
    with (match PyDict.lookup "args" d with Some x => x | None => VDict [] end) in *.
  unfold run_namespaces in Hn.
  apply bind_Ok in Hn as [listed [Hl Hn]]. apply py_get_field in Hl. subst listed.
  split.
  - intros item items Hlist. rewrite Hlist in Hn. cbn in Hn. injection Hn as <-.
    unfold join_namespaces, py_join in Hj. cbn [truthy py_iter bind] in Hj.
    apply bind_Ok in Hj as [strs [Hstrs Hj]]. injection Hj as <-.
    exists strs. split; [apply mapM_strings; exact Hstrs | exact Hrow].
  - intros Hfalsy. rewrite Hfalsy in Hn. cbn [negb] in Hn.
    apply bind_Ok in Hn as [single [Hs Hn]]. apply py_get_field in Hs. subst single.
    split.
    + intros s Hsingle. rewrite Hsingle in Hn.
      destruct s as [|c s].
      * change (truthy (VStr "")) with false in Hn. injection Hn as <-.
        unfold join_namespaces in Hj. rewrite Hfalsy in Hj. injection Hj as <-.
        exact Hrow.
      * change (truthy (VStr (String c s))) with true in Hn.
        apply bind_Ok in Hn as [again [Hagain Hn]]. apply py_get_field in Hagain.
        rewrite Hsingle in Hagain. subst again. injection Hn as <-.
        cbn in Hj. injection Hj as <-. exact Hrow.
    + intros Hnone. rewrite Hnone in Hn. injection Hn as <-.
      unfold join_namespaces in Hj. rewrite Hfalsy in Hj. injection Hj as <-.
      exact Hrow.
Qed.

Lemma summary_namespaces_witness :
  exists row,
    summary_row (VDict MoreSamples.named_run) = Ok row /\
    PyDict.lookup "namespaces" row = Some (VStr "ns1,ns2").
Proof.
  eexists. split; [reflexivity|].
  destruct (summary_namespaces MoreSamples.named_run _ eq_refl) as [Hlist _].
  destruct (Hlist _ _ eq_refl) as [strs [Hstrs Hrow]].
  destruct strs as [|s1 [|s2 [|s3 strs]]]; try discriminate.
  injection Hstrs as <- <-. exact Hrow.
Defined.

(** ** main: finding the files, the flags, partial output *)

(** X12: [--summary-only] leaves the deployments table alone: its rows are
    not built, so a document that would stop the deployments export does not
    stop the run, and no deployments file is written.  Both flags together
    act as no flag at all. *)
Theorem main_flags (json_load : string -> result value)
    (json_files : list string) (summary_file deployments_file : string) :
  json_files <> [] ->
  (forall rows,
     summary_rows json_load json_files = Ok rows ->
     main_exports json_load true false json_files summary_file deployments_file
     = ([WriteFile summary_file (table_text rows);
         Log INFO ("Wrote " ++ str_nat (List.length rows)
                   ++ " summary rows to " ++ summary_file)%string;
         Log INFO "Export complete!"], Ok 0%Z)) /\
  main_exports json_load true true json_files summary_file deployments_file
  = main_exports json_load false false json_files summary_file deployments_file.
Proof.
  intros Hne. split.
  - intros rows H.
    destruct (export_summary_written json_load json_files summary_file rows Hne H)
      as [Hw _].
    unfold main_exports. cbn [negb andb orb]. rewrite Hw. reflexivity.
  - reflexivity.
Qed.

Lemma main_flags_witness :
  exists rows,
    summary_rows MoreSamples.files_with_null ["out/a.json"; "out/d.json"] = Ok rows /\
    List.length rows = 2 /\
    deployments_rows MoreSamples.files_with_null ["out/a.json"; "out/d.json"]
    = Raise TypeError /\
    main_exports MoreSamples.files_with_null true false ["out/a.json"; "out/d.json"]
      "out/m-summary.csv" "out/m-deployments.csv"
    = ([WriteFile "out/m-summary.csv" (table_text rows);
        Log INFO "Wrote 2 summary rows to out/m-summary.csv";
        Log INFO "Export complete!"], Ok 0%Z).
Proof.
  eexists. split; [vm_compute; reflexivity|]. split; [reflexivity|].
  split; [vm_compute; reflexivity|].
  destruct (main_flags MoreSamples.files_with_null ["out/a.json"; "out/d.json"]
              "out/m-summary.csv" "out/m-deployments.csv") as [Hs _];
    [discriminate|].
  exact (Hs _ eq_refl).
Defined.

(** X13: the tables are written one after the other: when the summary
    export got through and the deployments export raises, the summary file
    is already written and stays, the exception leaves [main], and the
    closing [Export complete!] is not logged. *)
Theorem main_partial_output (json_load : string -> result value)
    (json_files : list string) (summary_file deployments_file : string)
    (rows : list (dict value)) (e : exn) :
  json_files <> [] ->
  summary_rows json_load json_files = Ok rows ->
  deployments_rows json_load json_files = Raise e ->
  main_exports json_load false false json_files summary_file deployments_file
  = ([WriteFile summary_file (table_text rows);
      Log INFO ("Wrote " ++ str_nat (List.length rows)
                ++ " summary rows to " ++ summary_file)%string], Raise e).
Proof.
  intros Hne Hs Hd.
  destruct (export_summary_written json_load json_files summary_file rows Hne Hs)
    as [Hw _].
  unfold main_exports. cbn [negb andb orb]. rewrite Hw.
  unfold export_deployments_csv. rewrite Hd. reflexivity.
Qed.

Lemma main_partial_output_witness :
  exists rows,
    summary_rows MoreSamples.files_with_null ["out/a.json"; "out/d.json"] = Ok rows /\
    main_exports MoreSamples.files_with_null false false ["out/a.json"; "out/d.json"]
      "out/m-summary.csv" "out/m-deployments.csv"
    = ([WriteFile "out/m-summary.csv" (table_text rows);
        Log INFO "Wrote 2 summary rows to out/m-summary.csv"], Raise TypeError).
Proof.
  eexists. split; [vm_compute; reflexivity|].
  refine (main_partial_output MoreSamples.files_with_null
            ["out/a.json"; "out/d.json"] "out/m-summary.csv" "out/m-deployments.csv"
            _ TypeError _ eq_refl eq_refl).
  discriminate.
Defined.


